(** * DeepResearch agent: retrieval, normalisation and summarisation

    A shallow embedding of [deepresearch_agent.py] and the properties its
    design document states about it.

    Conventions of the embedding.
    - A Python [str] is the list of its Unicode code points ([list N]), so
      that [len], slicing and [in] count characters as Python does.
    - A Python [dict] with string keys is a [gmap string _]; [d.get(k)] is
      [d !! k] and [d.get(k, v)] is [default v (d !! k)].
    - The values of a raw search result are strings, as the search provider
      returns them; on a string [str(x)] is [x].
    - The search provider and the summarisation model are collaborators:
      they are parameters of the development, and every call to one of them
      is recorded, with its arguments, in the trace of the computation.
    - Exceptions are values: a computation ends in an exception or in a
      result, and [try]/[except] is [try_except].  Logging is left out. *)

From stdpp Require Import base option list strings gmap.
From Stdlib Require Import ZArith NArith Ascii String Lia.

Local Open Scope Z_scope.

(** ** Python strings *)

Module PyStr.

(** A string is the list of its code points. *)
Abbreviation pystr := (list N).

(** UTF-8 decoding of a literal: [pending] continuation bytes are still
    expected for the code point accumulated in [acc]. *)
Fixpoint utf8_go (bs : list N) (acc : N) (pending : nat) : pystr :=
  match bs with
  | [] => []
  | b :: bs' =>
      match pending with
      | S k =>
          let acc' := (acc * 64 + N.land b 63)%N in
          match k with
          | O => acc' :: utf8_go bs' 0%N O
          | S _ => utf8_go bs' acc' k
          end
      | O =>
          if (b <? 128)%N then b :: utf8_go bs' 0%N O
          else if (b <? 224)%N then utf8_go bs' (N.land b 31) 1
          else if (b <? 240)%N then utf8_go bs' (N.land b 15) 2
          else utf8_go bs' (N.land b 7) 3
      end
  end.

Definition lit (s : string) : pystr :=
  utf8_go (List.map N_of_ascii (list_ascii_of_string s)) 0%N O.

Definition EM_DASH : N := 8212%N.
Definition HYPHEN : N := 45%N.
Definition NEWLINE : N := 10%N.
Definition DQUOTE : N := 34%N.

(** [str.isspace] on one character: the code points CPython's
    [Py_UNICODE_ISSPACE] accepts. *)
Definition isspace (c : N) : bool :=
  ((9 <=? c) && (c <=? 13) || (28 <=? c) && (c <=? 32)
   || (c =? 133) || (c =? 160) || (c =? 5760)
   || (8192 <=? c) && (c <=? 8202)
   || (c =? 8232) || (c =? 8233) || (c =? 8239) || (c =? 8287)
   || (c =? 12288))%N.

(** [s.lstrip()], [s.rstrip()], [s.strip()] *)
Fixpoint lstrip (s : pystr) : pystr :=
  match s with
  | [] => []
  | c :: s' => if isspace c then lstrip s' else s
  end.

Definition rstrip (s : pystr) : pystr := rev (lstrip (rev s)).

Definition strip (s : pystr) : pystr := rstrip (lstrip s).

(** [s.split()]: the maximal runs of characters that are not white space.
    [cur] is the run being read, last character first. *)
Fixpoint split_ws_from (cur : pystr) (s : pystr) : list pystr :=
  match s with
  | [] => match cur with [] => [] | _ :: _ => [rev cur] end
  | c :: s' =>
      if isspace c
      then match cur with
           | [] => split_ws_from [] s'
           | _ :: _ => rev cur :: split_ws_from [] s'
           end
      else split_ws_from (c :: cur) s'
  end.

Definition split_ws (s : pystr) : list pystr := split_ws_from [] s.

(** [s.split(sep)] for a separator of one character: never empty. *)
Fixpoint split_on (sep : N) (s : pystr) : list pystr :=
  match s with
  | [] => [[]]
  | c :: s' =>
      if (c =? sep)%N then [] :: split_on sep s'
      else match split_on sep s' with
           | seg :: segs => (c :: seg) :: segs
           | [] => [[c]]
           end
  end.

(** [sep in s] for a separator of one character *)
Definition contains (sep : N) (s : pystr) : bool :=
  existsb (N.eqb sep) s.

(** [l[-1]] and [l[0]] of a list of strings that is not empty *)
Definition last_seg (l : list pystr) : pystr := List.last l [].
Definition first_seg (l : list pystr) : pystr := List.hd [] l.

(** [len(s)] *)
Definition len (s : pystr) : Z := Z.of_nat (List.length s).

(** truth value of a string: [not s] is [negb (truthy s)] *)
Definition truthy (s : pystr) : bool :=
  match s with [] => false | _ :: _ => true end.

End PyStr.
Import PyStr.

(** A dictionary from string keys to strings. *)
Abbreviation dict := (gmap string pystr).

(** [d.get(k) or dflt]: the value under [k] when it is there and not empty. *)
Definition get_or (d : dict) (k : string) (dflt : pystr) : pystr :=
  match d !! k with
  | Some (c :: s) => c :: s
  | _ => dflt
  end.

(** [d.get(k, dflt)] *)
Definition get (d : dict) (k : string) (dflt : pystr) : pystr :=
  default dflt (d !! k).

(** ** Exceptions and calls to the collaborators *)

(** An exception, with the text [str(e)] gives for it. *)
Inductive exn : Type := Exception (msg : pystr).

Definition exn_msg (e : exn) : pystr := let 'Exception msg := e in msg.

(** An item of the list the search provider returns: a record, or anything
    else ([isinstance(result, dict)] fails on it). *)
Inductive raw : Type :=
  | NotDict
  | Dict (d : dict).

(** What a computation does that can be seen from outside: the calls to
    its collaborators, and the nodes the graph runs. *)
Inductive event : Type :=
  | ddgs_text_call (query : pystr) (max_results : Z)
  | summarizer_call (text : pystr) (max_length min_length : Z)
  | node_run (name : string).

(** A computation: how it ends, and its events, oldest first. *)
Definition M (A : Type) : Type := (exn + A) * list event.

Definition ret {A} (a : A) : M A := (inr a, []).

Definition raise {A} (e : exn) : M A := (inl e, []).

Definition bind {A B} (m : M A) (k : A -> M B) : M B :=
  match m with
  | (inl e, t) => (inl e, t)
  | (inr a, t) => let '(r, t') := k a in (r, t ++ t')
  end.

Definition try_except {A} (m : M A) (handler : exn -> M A) : M A :=
  match m with
  | (inl e, t) => let '(r, t') := handler e in (r, t ++ t')
  | (inr a, t) => (inr a, t)
  end.

Notation "x <- m ;; k" := (bind m (fun x => k))
  (at level 100, m at next level, right associativity).

(** The graph starts to run the node [name]. *)
Definition enter (name : string) : M unit := (inr tt, [node_run name]).

Definition outcome {A} (m : M A) : exn + A := fst m.
Definition trace {A} (m : M A) : list event := snd m.

(** The summarisation model: [model(text, max_length=.., min_length=..,
    do_sample=False)] gives a list of records or raises. *)
Definition model : Type := pystr -> Z -> Z -> exn + list dict.

(** ** Fixed strings of the program *)

Definition NO_DATA : pystr :=
  Eval vm_compute in lit "Нет данных для суммаризации".
Definition NO_SUMMARY : pystr :=
  Eval vm_compute in lit "Не удалось создать краткое содержание".
Definition SUMMARY_ERROR : pystr :=
  Eval vm_compute in lit "Ошибка при создании краткого содержания".
Definition NO_RESULTS : pystr :=
  Eval vm_compute in lit "Результаты не найдены.".
Definition LINK_TITLE : pystr := Eval vm_compute in lit "Ссылка".
Definition UNKNOWN_SOURCE : pystr :=
  Eval vm_compute in lit "Неизвестный источник".
Definition EMPTY_SUMMARY : pystr := Eval vm_compute in lit "Нет результатов".
Definition QUERY_TOO_SHORT : pystr :=
  Eval vm_compute in lit "Запрос должен содержать минимум 3 символа.".
Definition SUMMARY_MISSING : pystr :=
  Eval vm_compute in lit "Краткое содержание недоступно".
Definition UNTITLED : pystr := Eval vm_compute in lit "Без названия".
Definition NO_SOURCES : pystr := Eval vm_compute in lit "Источники не найдены".
Definition AGENT_ERROR : pystr :=
  Eval vm_compute in lit "Ошибка при обработке запроса: ".
Definition KEY_ERROR : pystr := Eval vm_compute in lit "'summary_text'".

(** A literal of the program that holds double quotes, written here with a
    backquote in the place of each of them. *)
Definition lit_q (s : string) : pystr :=
  List.map (fun c => if (c =? 96)%N then DQUOTE else c) (lit s).

Definition DIV_OPEN : pystr :=
  Eval vm_compute in lit_q "<div style=`margin-bottom: 8px;`>".
Definition A_OPEN : pystr := Eval vm_compute in lit_q "<a href=`".
Definition A_ATTRS : pystr :=
  Eval vm_compute in
    lit_q "` target=`_blank` style=`text-decoration: none; color: #1E90FF; font-weight: bold;`>".
Definition A_CLOSE_SPAN_OPEN : pystr :=
  Eval vm_compute in lit_q "</a> — <span style=`color: #555;`>".
Definition SPAN_CLOSE : pystr := Eval vm_compute in lit "</span>".
Definition DIV_CLOSE : pystr := Eval vm_compute in lit "</div>".

(** ** The state of the graph *)

Record ResearchState : Type := {
  query : option pystr;
  results : option (list dict);
  summary : option pystr;
  links : option (list dict)
}.

(** The state after a node returned the update [upd]: the keys the node
    wrote replace the old ones. *)
Definition update (st upd : ResearchState) : ResearchState :=
  {| query := from_option Some (query st) (query upd);
     results := from_option Some (results st) (results upd);
     summary := from_option Some (summary st) (summary upd);
     links := from_option Some (links st) (links upd) |}.

(** ** The research agent *)

Section ResearchAgent.

(** [DDGS().text(query, max_results=n)]: the raw results, or an exception. *)
Variable ddgs_text : pystr -> Z -> exn + list raw.

(** [pipeline("summarization", ...)]: the model, or an exception. *)
Variable pipeline : exn + model.

Definition call_ddgs_text (q : pystr) (max_results : Z) : M (list raw) :=
  (ddgs_text q max_results, [ddgs_text_call q max_results]).

Definition call_summarizer (m : model) (text : pystr) (max_length min_length : Z)
  : M (list dict) :=
  (m text max_length min_length, [summarizer_call text max_length min_length]).

(** [ResearchAgent._init_model]: the model, [None] when loading it failed. *)
Definition _init_model : option model :=
  match pipeline with
  | inr m => Some m
  | inl _ => None
  end.

(** [self.summarizer], set once by [__init__]. *)
Definition summarizer : option model := _init_model.

(** The fields read from one raw record. *)
Definition raw_url (result : dict) : pystr :=
  get_or result "href" (get_or result "url" []).

Definition raw_title (result : dict) : pystr := get result "title" [].

Definition raw_content (result : dict) : pystr :=
  get_or result "body" (get_or result "description" (get result "content" [])).

(** The source taken from a title. *)
Definition title_source (title : pystr) : pystr :=
  if contains EM_DASH title
  then strip (last_seg (split_on EM_DASH title))
  else strip (last_seg (split_on HYPHEN title)).

(** The record appended for an accepted raw record. *)
Definition document (result : dict) : dict :=
  let url := raw_url result in
  let title := raw_title result in
  let content := raw_content result in
  let source := title_source title in
  {[ "title" := take 200 title;
     "content" := take 500 content;
     "url" := url;
     "source" := take 100 source ]}.

(** One turn of the loop of [_clean_search_results], on the pair
    [(seen_urls, cleaned)]. *)
Definition clean_step (st : gset pystr * list dict) (result : raw)
  : gset pystr * list dict :=
  let '(seen_urls, cleaned) := st in
  match result with
  | NotDict => st
  | Dict result =>
      let url := raw_url result in
      let title := raw_title result in
      if negb (truthy url) || negb (truthy title)
         || bool_decide (url ∈ seen_urls)
      then st
      else ({[ url ]} ∪ seen_urls, cleaned ++ [document result])
  end.

(** The list [cleaned] when the loop is over. *)
Definition cleaned_of (results : list raw) : list dict :=
  snd (fold_left clean_step results (∅, [])).

Definition _clean_search_results (results : list raw) : list dict :=
  take 5 (cleaned_of results).

(** [not query or len(query.strip()) < 3] *)
Definition too_short (query : pystr) : bool :=
  negb (truthy query) || (len (strip query) <? 3).

Definition search (query : pystr) : M (list dict) :=
  if too_short query then ret []
  else
    try_except
      (results <- call_ddgs_text query 10 ;;
       ret (_clean_search_results results))
      (fun _ => ret []).

(** [len(text.split())] *)
Definition word_count (text : pystr) : Z :=
  Z.of_nat (List.length (split_ws text)).

Definition max_len_of (word_count : Z) : Z :=
  Z.min 130 (Z.max 30 (word_count / 2)).

Definition min_len_of (max_len : Z) : Z := Z.min 30 (max_len / 2).

Definition summarize (text : pystr) : M pystr :=
  match truthy text, summarizer with
  | true, Some m =>
      let text := strip text in
      if word_count text <? 10 then ret text
      else
        try_except
          (let max_len := max_len_of (word_count text) in
           let min_len := min_len_of max_len in
           result <- call_summarizer m text max_len min_len ;;
           match result with
           | [] => ret NO_SUMMARY
           | r0 :: _ =>
               match r0 !! "summary_text" with
               | Some s => ret s
               | None => raise (Exception KEY_ERROR)
               end
           end)
          (fun _ => ret SUMMARY_ERROR)
  | _, _ => ret NO_DATA
  end.

(** *** The nodes of the graph *)

Definition search_node (state : ResearchState) : M ResearchState :=
  let query := strip (default [] (query state)) in
  results <- search query ;;
  ret {| query := None; results := Some results;
         summary := None; links := None |}.

(** The link made of one document. *)
Definition link_of (result : dict) : dict :=
  {[ "title" := strip (first_seg (split_on EM_DASH (get result "title" LINK_TITLE)));
     "url" := get result "url" [35%N];
     "source" := get result "source" UNKNOWN_SOURCE ]}.

(** One turn of the loop of [summarize_node], on the pair
    [(combined_text, valid_links)]. *)
Definition node_step (st : pystr * list dict) (result : dict)
  : pystr * list dict :=
  let '(combined_text, valid_links) := st in
  let text := get result "title" [] ++ [NEWLINE] ++ get result "content" [] in
  (combined_text ++ [NEWLINE; NEWLINE] ++ text,
   valid_links ++ [link_of result]).

Definition summarize_node (state : ResearchState) : M ResearchState :=
  let results := default [] (results state) in
  match results with
  | [] =>
      ret {| query := None; results := None;
             summary := Some NO_RESULTS; links := Some [] |}
  | _ :: _ =>
      let '(combined_text, valid_links) :=
        fold_left node_step (take 5 results) ([], []) in
      summary <- summarize (strip combined_text) ;;
      ret {| query := None; results := None;
             summary := Some (if truthy summary then summary else EMPTY_SUMMARY);
             links := Some (take 5 valid_links) |}
  end.

(** [app.invoke]: the graph enters at the node [search], whose only edge
    leads to the node [summarize]; each node's update is written into the
    state. *)
Definition run_node (name : string) (node : ResearchState -> M ResearchState)
    (state : ResearchState) : M ResearchState :=
  _ <- enter name ;;
  upd <- node state ;;
  ret (update state upd).

Definition app_invoke (input : ResearchState) : M ResearchState :=
  state <- run_node "search" search_node input ;;
  run_node "summarize" summarize_node state.

(** *** The entry point *)

(** The markup of one link. *)
Definition format_link (link : dict) (url : pystr) : pystr :=
  let title := get link "title" UNTITLED in
  let source := get link "source" UNKNOWN_SOURCE in
  DIV_OPEN ++ A_OPEN ++ url ++ A_ATTRS ++ title
    ++ A_CLOSE_SPAN_OPEN ++ source ++ SPAN_CLOSE ++ DIV_CLOSE.

(** One turn of the loop of [run_agent], on [formatted_links]. *)
Definition format_step (formatted_links : list pystr) (link : dict)
  : list pystr :=
  match link !! "url" with
  | Some (c :: u) => formatted_links ++ [format_link link (c :: u)]
  | _ => formatted_links
  end.

Definition run_agent (query : pystr) : M (pystr * pystr) :=
  try_except
    (if too_short query then ret (QUERY_TOO_SHORT, [])
     else
       output <- app_invoke {| query := Some (strip query); results := None;
                               summary := None; links := None |} ;;
       let summary := default SUMMARY_MISSING (summary output) in
       let links := take 5 (default [] (links output)) in
       let formatted_links := fold_left format_step links [] in
       ret (summary,
            match formatted_links with
            | [] => NO_SOURCES
            | _ :: _ => List.concat formatted_links
            end))
    (fun e => ret (AGENT_ERROR ++ exn_msg e, [])).

End ResearchAgent.

(** ** The design document's wording

    Notions the design document uses and the program does not compute in
    that form; the theorems compare the program with them. *)

Module Spec.

(** [clamp(x, lo, hi)] *)
Definition clamp (x lo hi : Z) : Z :=
  if x <? lo then lo else if hi <? x then hi else x.

(** The value under the first alias that is present in the record. *)
Definition first_present (d : dict) (aliases : list string) : pystr :=
  default [] (head (omap (fun k => d !! k) aliases)).

(** The value under the first alias that holds a string that is not
    empty. *)
Definition first_nonempty (d : dict) (aliases : list string) : pystr :=
  default [] (head (filter (fun v => v ≠ []) (omap (fun k => d !! k) aliases))).

(** The part of [s] before the first [sep]; all of [s] when it has none. *)
Fixpoint before (sep : N) (s : pystr) : pystr :=
  match s with
  | [] => []
  | c :: s' => if (c =? sep)%N then [] else c :: before sep s'
  end.

(** The part of [s] after the last [sep]; all of [s] when it has none. *)
Definition after_last (sep : N) (s : pystr) : pystr :=
  rev (before sep (rev s)).

(** The attribution separator of a title: the em-dash when the title has
    one, else the hyphen. *)
Definition separator (title : pystr) : N :=
  if decide (EM_DASH ∈ title) then EM_DASH else HYPHEN.

(** The title of a link as the document words it: the part of the
    document's title before the attribution separator, a placeholder when
    the title is empty. *)
Definition link_title (title : pystr) : pystr :=
  match title with
  | [] => LINK_TITLE
  | _ :: _ => strip (before (separator title) title)
  end.

(** The markup of one link: an anchor on its url showing its title, then
    the separator and its source. *)
Definition fragment (title url source : pystr) : pystr :=
  DIV_OPEN ++ A_OPEN ++ url ++ A_ATTRS ++ title
    ++ A_CLOSE_SPAN_OPEN ++ source ++ SPAN_CLOSE ++ DIV_CLOSE.

(** The markup of a link that has its three fields. *)
Definition render (link : dict) : pystr :=
  fragment (get link "title" []) (get link "url" []) (get link "source" []).

End Spec.

(** ** Sample calls *)

Module Sample.

Definition doc_a : dict :=
  {[ "href" := lit "http://a"; "title" := lit "A - B";
     "body" := lit "one two three" ]}.

Definition doc_a_again : dict :=
  {[ "url" := lit "http://a"; "title" := lit "C — D"; "body" := lit "dup" ]}.

(** [href] is there and empty, [url] holds the address *)
Definition doc_empty_href : dict :=
  {[ "href" := []; "url" := lit "http://b"; "title" := lit "C — D " ]}.

(** neither [href] nor [url] *)
Definition doc_no_url : dict := {[ "title" := lit "E"; "body" := lit "text" ]}.

Definition batch : list raw :=
  [Dict doc_a; NotDict; Dict doc_a_again; Dict doc_no_url; Dict doc_empty_href].

Definition ddgs_ok : pystr -> Z -> exn + list raw := fun _ _ => inr batch.

Definition ddgs_down : pystr -> Z -> exn + list raw :=
  fun _ _ => inl (Exception (lit "timed out")).

Definition model_ok : model :=
  fun _ _ _ => inr [ {[ "summary_text" := lit "short" ]} ].

Definition model_raises : model :=
  fun _ _ _ => inl (Exception (lit "index out of range")).

Definition loaded : exn + model := inr model_ok.
Definition not_loaded : exn + model := inl (Exception (lit "no such model")).

Definition five_words : pystr := lit " one two  three four five ".

Definition twelve_words : pystr := lit "a b c d e f g h i j k l".

Definition three_hundred_words : pystr :=
  List.concat (replicate 300 (lit "word ")).

(** documents as the Synthesizer reads them *)
Definition document_hyphen : dict :=
  {[ "title" := lit "A - B"; "content" := lit "text";
     "url" := lit "http://a"; "source" := lit "B" ]}.

Definition document_no_title : dict :=
  {[ "title" := []; "content" := lit "text"; "url" := lit "http://a" ]}.

Definition document_bare : dict := {[ "content" := lit "text" ]}.

(** two raw results under one url *)
Definition doc_test : dict :=
  {[ "href" := lit "http://t"; "title" := lit "Test"; "body" := lit "short text" ]}.

Definition ddgs_twice : pystr -> Z -> exn + list raw :=
  fun _ _ => inr [Dict doc_test; Dict doc_test].

Definition with_results (docs : list dict) : ResearchState :=
  {| query := None; results := Some docs; summary := None; links := None |}.

End Sample.

(** ** Notions used in the proofs *)

(** The urls of a list of documents. *)
Definition urls (docs : list dict) : list (option pystr) :=
  (fun d => d !! "url") <$> docs.

(** When the loop of [_clean_search_results] passes over a record. *)
Definition skipped (seen : gset pystr) (r : dict) : Prop :=
  raw_url r = [] \/ raw_title r = [] \/ raw_url r ∈ seen.

#[local] Instance skipped_dec seen r : Decision (skipped seen r).
Proof. unfold skipped. apply _. Defined.

(** What holds of [(seen_urls, cleaned)] at every turn of that loop:
    [seen_urls] is the set of the urls of [cleaned], which are all
    different. *)
Definition loop_inv (st : gset pystr * list dict) : Prop :=
  (forall u, u ∈ st.1 <-> Some u ∈ urls st.2) /\ NoDup (urls st.2).

(** What [summarize] answers once the model has been called. *)
Definition summary_of (answer : exn + list dict) : pystr :=
  match answer with
  | inl _ => SUMMARY_ERROR
  | inr [] => NO_SUMMARY
  | inr (r0 :: _) => default SUMMARY_ERROR (r0 !! "summary_text")
  end.

(** A document as the Retriever makes it, and a link as the Synthesizer
    makes it: a url that is not empty, a title and a source. *)
Definition well_formed (d : dict) : Prop :=
  (exists c u, d !! "url" = Some (c :: u))
  /\ is_Some (d !! "title") /\ is_Some (d !! "source").

(** ** Further notions *)

(** The records of a batch, in order, without the items that are not
    records. *)
Definition records (results : list raw) : list dict :=
  omap (fun x => match x with Dict d => Some d | NotDict => None end) results.

(** The text block [summarize_node] appends for one document. *)
Definition block (d : dict) : pystr :=
  [NEWLINE; NEWLINE] ++ get d "title" [] ++ [NEWLINE] ++ get d "content" [].

(** The blocks of a list of documents, end to end. *)
Definition aggregate (docs : list dict) : pystr :=
  List.concat (block <$> docs).

(** The state [run_agent] hands to the graph. *)
Definition initial (q : pystr) : ResearchState :=
  {| query := Some q; results := None; summary := None; links := None |}.

(** What every run of the graph does first: the node [search], one call
    to the search provider, the node [summarize]. *)
Definition graph_events (q : pystr) : list event :=
  [node_run "search"; ddgs_text_call q 10; node_run "summarize"].

(** The documents [search] finds for a query that is long enough: none
    when the call to the search provider fails. *)
Definition found (ddgs_text : pystr -> Z -> exn + list raw) (q : pystr)
  : list dict :=
  match ddgs_text q 10 with
  | inl _ => []
  | inr results => _clean_search_results results
  end.

(** The markup [run_agent] makes of links that have their fields. *)
Definition links_markup (ls : list dict) : pystr :=
  match ls with
  | [] => NO_SOURCES
  | _ :: _ => List.concat (Spec.render <$> ls)
  end.

(** More sample inputs. *)
Module MoreSample.

(** a document of thirteen words *)
Definition document_long : dict :=
  {[ "title" := lit "T"; "content" := lit "a b c d e f g h i j k l";
     "url" := lit "http://l"; "source" := lit "T" ]}.

Definition long_text : pystr :=
  lit "T" ++ [NEWLINE] ++ lit "a b c d e f g h i j k l".

Definition six_documents : list dict :=
  replicate 6 Sample.document_hyphen.

(** a model that answers a record without [summary_text] *)
Definition model_no_key : model := fun _ _ _ => inr [ (∅ : dict) ].

(** a model that answers no record *)
Definition model_silent : model := fun _ _ _ => inr [].

(** a search provider that returns nothing that is kept *)
Definition ddgs_useless : pystr -> Z -> exn + list raw :=
  fun _ _ => inr [NotDict; Dict Sample.doc_no_url].

End MoreSample.

(** ** Facts about strings *)

Section StringFacts.

Implicit Types (s t : pystr) (c sep : N).

Lemma contains_elem_of sep s : contains sep s = true <-> sep ∈ s.
Proof.
  unfold contains. induction s as [|c s IH]; simpl.
  - split; [discriminate | intros H; inversion H].
  - rewrite orb_true_iff, IH, elem_of_cons, N.eqb_eq. tauto.
Qed.

Lemma contains_false sep s : contains sep s = false <-> sep ∉ s.
Proof.
  rewrite <- contains_elem_of. destruct (contains sep s); split; congruence.
Qed.

(** A string without the separator is split into itself. *)
Lemma split_on_absent sep s : sep ∉ s -> split_on sep s = [s].
Proof.
  induction s as [|c s IH]; intros Hnot; simpl; [reflexivity|].
  apply not_elem_of_cons in Hnot as [Hne Hs].
  destruct (N.eqb_spec c sep) as [->|_]; [congruence|].
  now rewrite (IH Hs).
Qed.

Lemma split_on_not_nil sep s : split_on sep s <> [].
Proof.
  destruct s as [|c s]; simpl; [discriminate|].
  destruct (c =? sep)%N; [discriminate|].
  destruct (split_on sep s); discriminate.
Qed.

(** [s.split(sep)[0]] is what precedes the first separator. *)
Lemma first_seg_split_on sep s :
  first_seg (split_on sep s) = Spec.before sep s.
Proof.
  induction s as [|c s IH]; simpl; [reflexivity|].
  destruct (c =? sep)%N; [reflexivity|].
  pose proof (split_on_not_nil sep s) as Hne.
  destruct (split_on sep s) as [|seg segs]; [congruence|].
  simpl in *. now rewrite IH.
Qed.

Lemma before_absent sep s : sep ∉ s -> Spec.before sep s = s.
Proof.
  induction s as [|c s IH]; intros Hnot; simpl; [reflexivity|].
  apply not_elem_of_cons in Hnot as [Hne Hs].
  destruct (N.eqb_spec c sep) as [->|_]; [congruence|].
  now rewrite (IH Hs).
Qed.

(** Splitting a string that grew by one character. *)
Lemma split_on_snoc sep s c :
  split_on sep (s ++ [c])
  = if (c =? sep)%N then split_on sep s ++ [[]]
    else removelast (split_on sep s) ++ [last_seg (split_on sep s) ++ [c]].
Proof.
  unfold last_seg.
  induction s as [|a s IH]; cbn [app split_on].
  - destruct (c =? sep)%N; reflexivity.
  - rewrite IH. pose proof (split_on_not_nil sep s) as Hne.
    destruct (split_on sep s) as [|x xs]; [congruence|].
    destruct (c =? sep)%N, (a =? sep)%N; try reflexivity.
    destruct xs as [|y ys]; reflexivity.
Qed.

(** [s.split(sep)[-1]] is what follows the last separator. *)
Lemma last_seg_split_on sep s :
  last_seg (split_on sep s) = Spec.after_last sep s.
Proof.
  unfold Spec.after_last.
  induction s as [|c s IH] using rev_ind; [reflexivity|].
  rewrite split_on_snoc, rev_app_distr. cbn [rev app Spec.before].
  destruct (c =? sep)%N.
  - unfold last_seg. now rewrite last_last.
  - unfold last_seg in *. rewrite last_last, IH. reflexivity.
Qed.

(** White space in front of a string does not count as a word. *)
Lemma split_ws_lstrip s : split_ws (lstrip s) = split_ws s.
Proof.
  unfold split_ws. induction s as [|c s IH]; simpl; [reflexivity|].
  destruct (isspace c) eqn:Hc; [exact IH|].
  simpl. now rewrite Hc.
Qed.

Lemma split_ws_from_spaces cur ws :
  Forall (fun c => isspace c = true) ws ->
  split_ws_from cur ws = split_ws_from cur [].
Proof.
  intros Hws. revert cur.
  induction Hws as [|c ws Hc _ IH]; intros cur; simpl; [reflexivity|].
  rewrite Hc. destruct cur as [|c' cur']; [apply IH|].
  now rewrite (IH []).
Qed.

(** Nor does white space behind it. *)
Lemma split_ws_from_app_spaces cur s ws :
  Forall (fun c => isspace c = true) ws ->
  split_ws_from cur (s ++ ws) = split_ws_from cur s.
Proof.
  intros Hws. revert cur.
  induction s as [|c s IH]; intros cur; simpl.
  - now apply split_ws_from_spaces.
  - destruct (isspace c); [destruct cur|]; now rewrite ?IH.
Qed.

Lemma lstrip_decompose s :
  exists ws, s = ws ++ lstrip s /\ Forall (fun c => isspace c = true) ws.
Proof.
  induction s as [|c s (ws & Heq & Hws)]; simpl.
  - now exists [].
  - destruct (isspace c) eqn:Hc.
    + exists (c :: ws). split; [simpl; congruence | now constructor].
    + now exists [].
Qed.

Lemma rstrip_decompose s :
  exists ws, s = rstrip s ++ ws /\ Forall (fun c => isspace c = true) ws.
Proof.
  destruct (lstrip_decompose (rev s)) as (ws & Heq & Hws).
  exists (rev ws). split.
  - unfold rstrip. rewrite <- rev_app_distr, <- Heq. now rewrite rev_involutive.
  - now apply Forall_rev.
Qed.

Lemma split_ws_rstrip s : split_ws (rstrip s) = split_ws s.
Proof.
  destruct (rstrip_decompose s) as (ws & Heq & Hws).
  unfold split_ws. rewrite Heq at 2.
  now rewrite split_ws_from_app_spaces.
Qed.

(** [s.strip().split()] and [s.split()] are the same words. *)
Lemma split_ws_strip s : split_ws (strip s) = split_ws s.
Proof. unfold strip. now rewrite split_ws_rstrip, split_ws_lstrip. Qed.

End StringFacts.

(** ** The loop of the Retriever *)

Section Retriever.

Implicit Types (r : dict) (seen : gset pystr) (cleaned : list dict).

Lemma truthy_false s : truthy s = false <-> s = [].
Proof. destruct s; simpl; split; congruence. Qed.

Lemma document_url r : document r !! "url" = Some (raw_url r).
Proof. unfold document. now simplify_map_eq. Qed.

Lemma document_title r : document r !! "title" = Some (take 200 (raw_title r)).
Proof. unfold document. now simplify_map_eq. Qed.

Lemma document_content r :
  document r !! "content" = Some (take 500 (raw_content r)).
Proof. unfold document. now simplify_map_eq. Qed.

Lemma document_source r :
  document r !! "source" = Some (take 100 (title_source (raw_title r))).
Proof. unfold document. now simplify_map_eq. Qed.

Lemma clean_step_dict seen cleaned r :
  clean_step (seen, cleaned) (Dict r) =
    if decide (skipped seen r) then (seen, cleaned)
    else ({[ raw_url r ]} ∪ seen, cleaned ++ [document r]).
Proof.
  unfold clean_step, skipped.
  destruct (truthy (raw_url r)) eqn:Hu; simpl.
  - destruct (truthy (raw_title r)) eqn:Ht; simpl.
    + case_bool_decide as Hin.
      * rewrite decide_True; [reflexivity | tauto].
      * rewrite decide_False; [reflexivity|].
        intros [Hu'| [Ht'|?]]; [rewrite Hu' in Hu | rewrite Ht' in Ht | tauto];
          discriminate.
    + apply truthy_false in Ht. rewrite decide_True; [reflexivity | tauto].
  - apply truthy_false in Hu. rewrite decide_True; [reflexivity | tauto].
Qed.

Lemma clean_step_skip seen cleaned r :
  skipped seen r -> clean_step (seen, cleaned) (Dict r) = (seen, cleaned).
Proof. intros H. rewrite clean_step_dict. now rewrite decide_True. Qed.

Lemma clean_step_accept seen cleaned r :
  ~ skipped seen r ->
  clean_step (seen, cleaned) (Dict r)
  = ({[ raw_url r ]} ∪ seen, cleaned ++ [document r]).
Proof. intros H. rewrite clean_step_dict. now rewrite decide_False. Qed.

Lemma loop_inv_init : loop_inv (∅, []).
Proof.
  split; simpl; [|constructor].
  intros u. split; [set_solver | intros H; inversion H].
Qed.

Lemma loop_inv_step st x : loop_inv st -> loop_inv (clean_step st x).
Proof.
  destruct st as [seen cleaned]. intros [Hseen Hnd].
  destruct x as [|r]; [now split|].
  rewrite clean_step_dict. case_decide as Hskip; [now split|].
  unfold loop_inv, urls in *. cbn [fst snd] in *.
  rewrite fmap_app, (list_fmap_singleton _ (document r)), document_url.
  split.
  - intros u. rewrite elem_of_union, elem_of_singleton, elem_of_app,
      list_elem_of_singleton, Hseen.
    split; (intros [H|H]; [right | left]); congruence.
  - apply NoDup_app. split; [exact Hnd|]. split; [|apply NoDup_singleton].
    intros o Ho Ho'. apply list_elem_of_singleton in Ho'. subst o.
    apply Hseen in Ho. unfold skipped in Hskip. tauto.
Qed.

Lemma loop_inv_fold results st :
  loop_inv st -> loop_inv (fold_left clean_step results st).
Proof.
  revert st. induction results as [|x results IH]; intros st Hst; simpl.
  - exact Hst.
  - apply IH. now apply loop_inv_step.
Qed.

(** The loop only appends, and what it appends are the documents of
    records of the batch, in the order of the batch. *)
Lemma fold_appends results seen cleaned :
  exists accepted,
    (Dict <$> accepted) `sublist_of` results /\
    (fold_left clean_step results (seen, cleaned)).2
    = cleaned ++ (document <$> accepted).
Proof.
  revert seen cleaned.
  induction results as [|x results IH]; intros seen cleaned; cbn [fold_left].
  - exists []. split; [constructor | simpl; now rewrite app_nil_r].
  - destruct x as [|r].
    + destruct (IH seen cleaned) as (acc & Hsub & Heq).
      exists acc. split; [now apply sublist_cons | exact Heq].
    + rewrite clean_step_dict. case_decide as Hskip.
      * destruct (IH seen cleaned) as (acc & Hsub & Heq).
        exists acc. split; [now apply sublist_cons | exact Heq].
      * destruct (IH ({[raw_url r]} ∪ seen) (cleaned ++ [document r]))
          as (acc & Hsub & Heq).
        exists (r :: acc). split; [now apply sublist_skip|].
        rewrite Heq, <- app_assoc. reflexivity.
Qed.

Lemma cleaned_of_snoc pre x :
  cleaned_of (pre ++ [x])
  = (clean_step (fold_left clean_step pre (∅, [])) x).2.
Proof. unfold cleaned_of. now rewrite fold_left_app. Qed.

(** A record that is passed over leaves no mark on the loop. *)
Lemma fold_skip pre r post :
  (forall seen, skipped seen r) ->
  fold_left clean_step (pre ++ Dict r :: post) (∅, [])
  = fold_left clean_step (pre ++ post) (∅, []).
Proof.
  intros Hskip. rewrite !fold_left_app. cbn [fold_left].
  destruct (fold_left clean_step pre (∅, [])) as [seen cleaned].
  now rewrite clean_step_skip.
Qed.

(** Every document of the list [cleaned] is the document of a record of
    the batch whose url and title are not empty. *)
Lemma fold_documents results st d :
  d ∈ (fold_left clean_step results st).2 ->
  d ∈ st.2 \/
  exists r, Dict r ∈ results /\ raw_url r <> [] /\ raw_title r <> []
            /\ d = document r.
Proof.
  revert st.
  induction results as [|x results IH]; intros st Hd; cbn [fold_left] in *.
  - now left.
  - apply IH in Hd as [Hd | (r & Hin & Hr)].
    + destruct st as [seen cleaned]. destruct x as [|r]; [now left|].
      rewrite clean_step_dict in Hd. case_decide as Hskip; [now left|].
      simpl in Hd. apply elem_of_app in Hd as [Hd|Hd]; [now left|].
      apply list_elem_of_singleton in Hd. right. exists r.
      unfold skipped in Hskip.
      split; [apply elem_of_cons; now left|]. tauto.
    + right. exists r. split; [apply elem_of_cons; now right | exact Hr].
Qed.

End Retriever.

(** ** The Retriever: theorems *)

(** C1. Whatever the batch of raw results, no two documents returned by
    [_clean_search_results] have the same url, there are at most five of
    them, and they are the first five accepted documents in the order of the
    batch: the documents of a subsequence of its records. *)
Theorem clean_search_results_unique_bounded_ordered (results : list raw) :
  NoDup (urls (_clean_search_results results))
  /\ (List.length (_clean_search_results results) <= 5)%nat
  /\ exists accepted : list dict,
       (Dict <$> accepted) `sublist_of` results
       /\ cleaned_of results = document <$> accepted
       /\ _clean_search_results results = document <$> take 5 accepted.
Proof.
  unfold _clean_search_results. split; [|split].
  - pose proof (loop_inv_fold results (∅, []) loop_inv_init) as [_ Hnd].
    unfold urls in *. rewrite fmap_take.
    exact (sublist_NoDup _ _ Hnd (sublist_take _ 5)).
  - rewrite length_take. lia.
  - destruct (fold_appends results ∅ []) as (accepted & Hsub & Heq).
    exists accepted. unfold cleaned_of. rewrite Heq. simpl.
    split; [exact Hsub|]. split; [reflexivity|]. now rewrite fmap_take.
Qed.

(** C4. Every document returned comes from a record of the batch, and its
    source is the last segment of that record's title split on the em-dash
    when the title has one and on the hyphen when it has none, which is the
    text after the last such separator, trimmed and cut to 100 characters;
    for a title with neither, that is the whole title, trimmed and cut to
    100 characters. *)
Theorem clean_search_results_source (results : list raw) (d : dict) :
  d ∈ _clean_search_results results ->
  exists r : dict,
    Dict r ∈ results /\ d = document r
    /\ d !! "source"
       = Some (take 100 (strip (last_seg
                 (split_on (Spec.separator (raw_title r)) (raw_title r)))))
    /\ d !! "source"
       = Some (take 100 (strip
                 (Spec.after_last (Spec.separator (raw_title r)) (raw_title r))))
    /\ (EM_DASH ∉ raw_title r -> HYPHEN ∉ raw_title r ->
        d !! "source" = Some (take 100 (strip (raw_title r)))).
Proof.
  intros Hd. apply subseteq_take in Hd.
  apply fold_documents in Hd as [Hd | (r & Hin & _ & _ & ->)];
    [inversion Hd|].
  exists r. split; [exact Hin|]. split; [reflexivity|].
  rewrite document_source, <- last_seg_split_on.
  unfold title_source, Spec.separator.
  assert (Hsrc :
    (if contains EM_DASH (raw_title r)
     then strip (last_seg (split_on EM_DASH (raw_title r)))
     else strip (last_seg (split_on HYPHEN (raw_title r))))
    = strip (last_seg
        (split_on (if decide (EM_DASH ∈ raw_title r) then EM_DASH else HYPHEN)
           (raw_title r)))).
  { destruct (contains EM_DASH (raw_title r)) eqn:Hc.
    - apply contains_elem_of in Hc. now rewrite decide_True.
    - apply contains_false in Hc. now rewrite decide_False. }
  split; [now rewrite Hsrc|]. split; [now rewrite Hsrc|].
  intros Hem Hhy. apply contains_false in Hem. rewrite Hem.
  now rewrite (split_on_absent _ _ Hhy).
Qed.

(** C6, as the code has it. The url of a record is the value of the first
    of [href], [url] that holds a string that is not empty, its content the
    value of the first such of [body], [description], [content], and both
    are empty when there is none. The loop passes over a record exactly
    when that url is empty, its title is empty, or that url is the url of a
    document accepted earlier in the batch; otherwise it appends the
    record's document. A record with neither [href] nor [url] changes
    nothing in what is returned. *)
Theorem clean_search_results_skip_rule (pre : list raw) (r : dict) :
  raw_url r = Spec.first_nonempty r ["href"; "url"]
  /\ raw_content r = Spec.first_nonempty r ["body"; "description"; "content"]
  /\ document r !! "url" = Some (raw_url r)
  /\ document r !! "content" = Some (take 500 (raw_content r))
  /\ cleaned_of (pre ++ [Dict r])
     = cleaned_of pre
       ++ (if decide (raw_url r = [] \/ raw_title r = []
                      \/ Some (raw_url r) ∈ urls (cleaned_of pre))
           then [] else [document r])
  /\ (r !! "href" = None -> r !! "url" = None ->
      forall post,
        _clean_search_results (pre ++ Dict r :: post)
        = _clean_search_results (pre ++ post)).
Proof.
  split; [|split; [|split; [|split; [|split]]]].
  - unfold raw_url, Spec.first_nonempty, get_or. simpl.
    destruct (r !! "href") as [[|c s]|]; destruct (r !! "url") as [[|c' s']|];
      reflexivity.
  - unfold raw_content, Spec.first_nonempty, get_or, get. simpl.
    destruct (r !! "body") as [[|c s]|];
      destruct (r !! "description") as [[|c' s']|];
      destruct (r !! "content") as [[|c'' s'']|]; reflexivity.
  - apply document_url.
  - apply document_content.
  - rewrite cleaned_of_snoc. unfold cleaned_of.
    pose proof (loop_inv_fold pre (∅, []) loop_inv_init) as [Hseen _].
    destruct (fold_left clean_step pre (∅, [])) as [seen cleaned].
    cbn [fst snd] in *. rewrite clean_step_dict. unfold skipped.
    specialize (Hseen (raw_url r)).
    repeat case_decide; cbn [snd];
      [now rewrite app_nil_r | tauto | tauto | reflexivity].
  - intros Hhref Hurl post. unfold _clean_search_results, cleaned_of.
    rewrite fold_skip; [reflexivity|].
    intros seen. left. unfold raw_url, get_or. now rewrite Hhref, Hurl.
Qed.

(** ** The summariser *)

Section Summarize.

Implicit Types (m : model) (text : pystr) (W : Z).

Lemma max_len_of_clamp W : max_len_of W = Spec.clamp (W / 2) 30 130.
Proof.
  unfold max_len_of, Spec.clamp.
  destruct (Z.ltb_spec (W / 2) 30); [lia|].
  destruct (Z.ltb_spec 130 (W / 2)); lia.
Qed.

Lemma max_len_of_range W : 30 <= max_len_of W <= 130.
Proof. unfold max_len_of. lia. Qed.

Lemma min_len_of_range mx : 30 <= mx <= 130 -> 15 <= min_len_of mx <= 30.
Proof.
  unfold min_len_of. intros Hmx.
  assert (15 <= mx / 2) by (apply Z.div_le_lower_bound; lia).
  lia.
Qed.

Lemma min_len_of_le mx : 0 <= mx -> min_len_of mx <= mx.
Proof.
  unfold min_len_of. intros Hmx.
  assert (mx / 2 <= mx) by (apply Z.div_le_upper_bound; lia).
  lia.
Qed.

Lemma word_count_strip text : word_count (strip text) = word_count text.
Proof. unfold word_count. now rewrite split_ws_strip. Qed.

Lemma summarize_unavailable e text :
  summarize (inl e) text = (inr NO_DATA, []).
Proof. unfold summarize, summarizer, _init_model. now destruct (truthy text). Qed.

Lemma summarize_empty pipeline : summarize pipeline [] = (inr NO_DATA, []).
Proof. reflexivity. Qed.

Lemma summarize_short m text :
  text <> [] -> word_count text < 10 ->
  summarize (inr m) text = (inr (strip text), []).
Proof.
  intros Hne HW. unfold summarize, summarizer, _init_model.
  destruct text as [|c text]; [congruence|]. cbn [truthy].
  rewrite word_count_strip.
  destruct (Z.ltb_spec (word_count (c :: text)) 10); [reflexivity | lia].
Qed.

Lemma summarize_long m text :
  10 <= word_count text ->
  let max_len := max_len_of (word_count text) in
  let min_len := min_len_of max_len in
  summarize (inr m) text
  = (inr (summary_of (m (strip text) max_len min_len)),
     [summarizer_call (strip text) max_len min_len]).
Proof.
  intros HW. unfold summarize, summarizer, _init_model.
  destruct text as [|c text];
    [change (word_count []) with 0 in HW; lia|]. cbn [truthy].
  rewrite word_count_strip.
  destruct (Z.ltb_spec (word_count (c :: text)) 10); [lia|].
  unfold call_summarizer, bind, try_except, ret, raise, summary_of.
  destruct (m _ _ _) as [e|[|r0 rest]]; [reflexivity | reflexivity |].
  destruct (r0 !! "summary_text"); reflexivity.
Qed.

(** [summarize] ends in a string, never in an exception. *)
Lemma summarize_returns pipeline text :
  exists s, outcome (summarize pipeline text) = inr s.
Proof.
  destruct pipeline as [e|m]; [rewrite summarize_unavailable; now eexists|].
  destruct text as [|c text]; [now eexists|].
  destruct (Z.lt_ge_cases (word_count (c :: text)) 10) as [HW|HW].
  - rewrite summarize_short; [now eexists | discriminate | exact HW].
  - rewrite (summarize_long m _ HW). now eexists.
Qed.

End Summarize.

(** C2. For a text of at least ten words, where [W] is its number of
    words, [max_len] is [clamp(W // 2, 30, 130)] and [min_len] is
    [min(30, max_len // 2)], the one call [summarize] makes to the model, when
    there is a model, is on the trimmed text with [max_length = max_len] and
    [min_length = min_len]; for 300 words, [30 <= min_len <= max_len <= 130]. *)
Theorem summarize_length_bounds (pipeline : exn + model) (text : pystr) :
  10 <= word_count text ->
  let max_len := Spec.clamp (word_count text / 2) 30 130 in
  let min_len := Z.min 30 (max_len / 2) in
  trace (summarize pipeline text)
  = match pipeline with
    | inr _ => [summarizer_call (strip text) max_len min_len]
    | inl _ => []
    end
  /\ (word_count text = 300 -> 30 <= min_len <= max_len /\ max_len <= 130).
Proof.
  intros HW max_len min_len. split.
  - destruct pipeline as [e|m]; [now rewrite summarize_unavailable|].
    rewrite (summarize_long m text HW). unfold trace, snd.
    rewrite max_len_of_clamp. reflexivity.
  - intros H300. subst min_len max_len. rewrite H300.
    change (Spec.clamp (300 / 2) 30 130) with 130.
    change (Z.min 30 (130 / 2)) with 30. lia.
Qed.

(** C3, as the code has it. For a text that is not empty and has fewer
    than ten words: when the model has been loaded, [summarize] returns the
    text trimmed and otherwise unchanged, and does not call the model; when
    the model could not be loaded, it returns the marker [NO_DATA]. *)
Theorem summarize_short_text (m : model) (e : exn) (text : pystr) :
  text <> [] -> word_count text < 10 ->
  summarize (inr m) text = (inr (strip text), [])
  /\ summarize (inl e) text = (inr NO_DATA, []).
Proof.
  intros Hne HW. split.
  - now apply summarize_short.
  - apply summarize_unavailable.
Qed.

(** C10. For ten words or more, [min_len] lies between 15 and 30 and is
    at most [max_len]; up to 60 words [max_len] is 30 and [min_len] is 15,
    below 30. *)
Theorem min_len_between_15_and_30 (W : Z) :
  10 <= W ->
  15 <= min_len_of (max_len_of W) <= 30
  /\ min_len_of (max_len_of W) <= max_len_of W
  /\ (W <= 60 ->
      max_len_of W = 30 /\ min_len_of (max_len_of W) = 15
      /\ min_len_of (max_len_of W) < 30).
Proof.
  intros HW. pose proof (max_len_of_range W) as Hmx.
  split; [now apply min_len_of_range|].
  split; [apply min_len_of_le; lia|].
  intros H60.
  assert (Hmax : max_len_of W = 30).
  { unfold max_len_of.
    assert (W / 2 <= 30) by (apply Z.div_le_upper_bound; lia). lia. }
  rewrite Hmax. change (min_len_of 30) with 15. lia.
Qed.

(** ** Search *)

Section Search.

Variable ddgs_text : pystr -> Z -> exn + list raw.

Lemma too_short_iff query :
  too_short query = true <-> query = [] \/ len (strip query) < 3.
Proof.
  unfold too_short. rewrite orb_true_iff, negb_true_iff, truthy_false.
  now rewrite Z.ltb_lt.
Qed.

Lemma too_short_false query :
  too_short query = false <-> query <> [] /\ 3 <= len (strip query).
Proof.
  unfold too_short. rewrite orb_false_iff, negb_false_iff, Z.ltb_ge.
  destruct query; simpl; intuition congruence.
Qed.

Lemma search_short query :
  too_short query = true -> search ddgs_text query = (inr [], []).
Proof. intros H. unfold search. now rewrite H. Qed.

Lemma search_long query :
  too_short query = false ->
  search ddgs_text query
  = (inr (match ddgs_text query 10 with
          | inl _ => []
          | inr results => _clean_search_results results
          end),
     [ddgs_text_call query 10]).
Proof.
  intros H. unfold search. rewrite H.
  unfold call_ddgs_text, bind, try_except, ret.
  now destruct (ddgs_text query 10).
Qed.

Lemma clean_search_results_well_formed results :
  Forall well_formed (_clean_search_results results).
Proof.
  apply Forall_forall. intros d Hd. apply subseteq_take in Hd.
  apply fold_documents in Hd as [Hd | (r & _ & Hu & _ & ->)];
    [inversion Hd|].
  unfold well_formed.
  rewrite document_url, document_title, document_source.
  split; [|split; now eexists].
  destruct (raw_url r) as [|c u]; [congruence | now exists c, u].
Qed.

(** [search] ends in a list of at most five well-formed documents. *)
Lemma search_returns query :
  exists docs tr,
    search ddgs_text query = (inr docs, tr)
    /\ Forall well_formed docs /\ (List.length docs <= 5)%nat.
Proof.
  destruct (too_short query) eqn:Hq.
  - rewrite (search_short _ Hq). exists [], []. simpl.
    split; [reflexivity|]. split; [constructor | lia].
  - rewrite (search_long _ Hq). eexists _, _. split; [reflexivity|].
    destruct (ddgs_text query 10) as [e|results].
    + split; [constructor | simpl; lia].
    + split; [apply clean_search_results_well_formed|].
      unfold _clean_search_results. rewrite length_take. lia.
Qed.

End Search.

(** ** The node [summarize] *)

Section SummarizeNode.

Variable pipeline : exn + model.

Lemma link_of_title d :
  link_of d !! "title"
  = Some (strip (Spec.before EM_DASH (get d "title" LINK_TITLE))).
Proof.
  unfold link_of. rewrite <- first_seg_split_on. now simplify_map_eq.
Qed.

Lemma link_of_url d : link_of d !! "url" = Some (get d "url" [35%N]).
Proof. unfold link_of. now simplify_map_eq. Qed.

Lemma link_of_source d :
  link_of d !! "source" = Some (get d "source" UNKNOWN_SOURCE).
Proof. unfold link_of. now simplify_map_eq. Qed.

(** The loop appends one link for each document, in order. *)
Lemma node_fold_links docs st :
  (fold_left node_step docs st).2 = st.2 ++ (link_of <$> docs).
Proof.
  revert st. induction docs as [|d docs IH]; intros [text lks];
    cbn [fold_left].
  - simpl. now rewrite app_nil_r.
  - unfold node_step at 2. rewrite IH. cbn [snd fmap list_fmap].
    now rewrite <- app_assoc.
Qed.

Lemma summarize_node_empty state :
  results state = None \/ results state = Some [] ->
  summarize_node pipeline state
  = (inr {| query := None; results := None;
            summary := Some NO_RESULTS; links := Some [] |}, []).
Proof. unfold summarize_node. intros [-> | ->]; reflexivity. Qed.

(** With documents, the node answers a summary that is not empty and the
    links of the first five of them. *)
Lemma summarize_node_links state d docs :
  results state = Some (d :: docs) ->
  exists s tr,
    s <> [] /\
    summarize_node pipeline state
    = (inr {| query := None; results := None; summary := Some s;
              links := Some (link_of <$> take 5 (d :: docs)) |}, tr).
Proof.
  intros Hres. unfold summarize_node. rewrite Hres.
  cbn [default from_option id].
  pose proof (node_fold_links (take 5 (d :: docs)) ([], [])) as Hlinks.
  destruct (fold_left node_step (take 5 (d :: docs)) ([], []))
    as [combined_text valid_links].
  cbn [snd app] in Hlinks. subst valid_links.
  destruct (summarize_returns pipeline (strip combined_text)) as [s Hs].
  destruct (summarize pipeline (strip combined_text)) as [[e|s'] tr];
    [discriminate Hs|].
  exists (if truthy s' then s' else EMPTY_SUMMARY), (tr ++ []).
  split; [destruct s'; discriminate|].
  unfold bind, ret. rewrite (take_ge (link_of <$> _)); [reflexivity|].
  rewrite length_fmap, length_take. lia.
Qed.

End SummarizeNode.

(** C5, as the code has it. For each of the first five documents the node
    [summarize] builds one link, in order. Its title is the part of the
    document's title before the first em-dash, trimmed, when the title has an
    em-dash, and the whole title, trimmed, when it has neither em-dash nor
    hyphen; its url and its source are the document's. The placeholders
    stand for a field the document does not have. *)
Theorem summarize_node_link_fields
    (pipeline : exn + model) (state : ResearchState) (d0 : dict)
    (docs : list dict) :
  results state = Some (d0 :: docs) ->
  exists upd ls,
    outcome (summarize_node pipeline state) = inr upd
    /\ links upd = Some ls
    /\ Forall2
         (fun d l =>
            (forall t, d !! "title" = Some t -> EM_DASH ∈ t ->
                       l !! "title" = Some (strip (Spec.before EM_DASH t)))
            /\ (forall t, d !! "title" = Some t ->
                          EM_DASH ∉ t -> HYPHEN ∉ t ->
                          l !! "title" = Some (strip t))
            /\ (d !! "title" = None -> l !! "title" = Some LINK_TITLE)
            /\ l !! "url" = Some (default (lit "#") (d !! "url"))
            /\ l !! "source" = Some (default UNKNOWN_SOURCE (d !! "source")))
         (take 5 (d0 :: docs)) ls.
Proof.
  intros Hres.
  destruct (summarize_node_links pipeline state d0 docs Hres)
    as (s & tr & _ & Hnode).
  rewrite Hnode. eexists _, _. split; [reflexivity|]. split; [reflexivity|].
  apply Forall2_fmap_r, Forall_Forall2_diag, Forall_forall. intros d _.
  unfold compose. cbv beta. rewrite link_of_title, link_of_url, link_of_source. unfold get.
  split; [|split; [|split; [|split]]]; try reflexivity.
  - now intros t -> _.
  - intros t -> Hem _. cbn [default from_option id].
    now rewrite (before_absent _ _ Hem).
  - now intros ->.
Qed.

(** C7. For a query that is empty or has fewer than three characters once
    trimmed, [search] returns the empty list and [run_agent] returns the
    validation message with empty links; neither calls the search provider
    or the model, and [run_agent] runs no node of the graph. *)
Theorem short_query_rejected
    (ddgs_text : pystr -> Z -> exn + list raw) (pipeline : exn + model)
    (query : pystr) :
  query = [] \/ len (strip query) < 3 ->
  search ddgs_text query = (inr [], [])
  /\ run_agent ddgs_text pipeline query = (inr (QUERY_TOO_SHORT, []), []).
Proof.
  intros Hq. apply too_short_iff in Hq.
  split; [now apply search_short|].
  unfold run_agent. now rewrite Hq.
Qed.

(** C8. [search] ends in a list and [summarize] in a string, never in
    an exception. When the call to the search provider fails, [search]
    returns the empty list. When the model could not be loaded, [summarize]
    returns the marker [NO_DATA]; when a call it makes to the model raises,
    it returns the marker [SUMMARY_ERROR], which is another string. *)
Theorem stages_never_raise
    (ddgs_text : pystr -> Z -> exn + list raw) (pipeline : exn + model)
    (m : model) (e : exn) (query text : pystr) :
  (exists docs, outcome (search ddgs_text query) = inr docs)
  /\ (forall e', ddgs_text query 10 = inl e' ->
                 outcome (search ddgs_text query) = inr [])
  /\ (exists s, outcome (summarize pipeline text) = inr s)
  /\ summarize (inl e) text = (inr NO_DATA, [])
  /\ (forall t max_len min_len e',
        summarizer_call t max_len min_len ∈ trace (summarize (inr m) text) ->
        m t max_len min_len = inl e' ->
        outcome (summarize (inr m) text) = inr SUMMARY_ERROR)
  /\ NO_DATA <> SUMMARY_ERROR.
Proof.
  split; [|split; [|split; [|split; [|split]]]].
  - destruct (search_returns ddgs_text query) as (docs & tr & -> & _).
    now exists docs.
  - intros e' He. destruct (too_short query) eqn:Hq.
    + now rewrite search_short.
    + rewrite (search_long _ _ Hq), He. reflexivity.
  - apply summarize_returns.
  - apply summarize_unavailable.
  - intros t mx mn e' Hcall Hraise.
    destruct text as [|c text]; [inversion Hcall|].
    destruct (Z.lt_ge_cases (word_count (c :: text)) 10) as [HW|HW].
    + rewrite summarize_short in Hcall; [inversion Hcall | discriminate | exact HW].
    + rewrite (summarize_long m _ HW) in Hcall |- *.
      unfold trace, outcome in *. cbn [fst snd] in *.
      apply list_elem_of_singleton in Hcall.
      injection Hcall as -> -> ->. now rewrite Hraise.
  - discriminate.
Qed.

(** ** The graph and the entry point *)

Section Pipeline.

Variable ddgs_text : pystr -> Z -> exn + list raw.
Variable pipeline : exn + model.

Lemma bind_inr {A B} (m : M A) (k : A -> M B) a t :
  m = (inr a, t) -> bind m k = ((k a).1, t ++ (k a).2).
Proof. intros ->. unfold bind. now destruct (k a). Qed.

Lemma link_of_well_formed d : well_formed d -> well_formed (link_of d).
Proof.
  intros [(c & u & Hu) _]. unfold well_formed.
  rewrite link_of_title, link_of_url, link_of_source.
  split; [|split; now eexists].
  exists c, u. unfold get. now rewrite Hu.
Qed.

(** The state the graph ends in: the documents found, a summary, and one
    link for each document. *)
Lemma app_invoke_returns q :
  exists docs s tr,
    app_invoke ddgs_text pipeline
      {| query := Some q; results := None; summary := None; links := None |}
    = (inr {| query := Some q; results := Some docs; summary := Some s;
              links := Some (link_of <$> docs) |}, tr)
    /\ Forall well_formed docs /\ (List.length docs <= 5)%nat.
Proof.
  destruct (search_returns ddgs_text (strip q))
    as (docs & tr & Hsearch & Hwf & Hlen).
  assert (Hnode1 : exists tr1,
    run_node "search" (search_node ddgs_text)
      {| query := Some q; results := None; summary := None; links := None |}
    = (inr {| query := Some q; results := Some docs; summary := None;
              links := None |}, tr1)).
  { unfold run_node, enter, search_node, bind, ret.
    cbn [query default from_option id]. rewrite Hsearch.
    eexists. reflexivity. }
  destruct Hnode1 as [tr1 Hnode1].
  unfold app_invoke. rewrite (bind_inr _ _ _ _ Hnode1).
  exists docs. destruct docs as [|d docs].
  - unfold run_node. rewrite summarize_node_empty; [|now right].
    eexists _, _. split; [reflexivity|]. now split.
  - destruct (summarize_node_links pipeline
                {| query := Some q; results := Some (d :: docs);
                   summary := None; links := None |} d docs eq_refl)
      as (s & tr' & _ & Hnode).
    unfold run_node. rewrite Hnode. rewrite take_ge by exact Hlen.
    eexists _, _. split; [reflexivity|]. now split.
Qed.

(** On links that have their fields the loop of [run_agent] makes one
    fragment for each. *)
Lemma format_fold ls acc :
  Forall well_formed ls ->
  fold_left format_step ls acc = acc ++ (Spec.render <$> ls).
Proof.
  intros Hwf. revert acc.
  induction Hwf as [|l ls Hl _ IH]; intros acc; cbn [fold_left].
  - simpl. now rewrite app_nil_r.
  - rewrite IH. destruct Hl as ((c & u & Hu) & [t Ht] & [src Hsrc]).
    unfold format_step, format_link, Spec.render, Spec.fragment, get.
    cbn [fmap list_fmap]. rewrite Hu, Ht, Hsrc.
    cbn [default from_option id]. now rewrite <- app_assoc.
Qed.

End Pipeline.

(** C9. A query that the validation rejects never reaches an outcome: it
    gets the validation message and empty links. For every query that
    passes the validation, the graph ends in an outcome, a summary and a
    list of links that have their fields; [run_agent] returns that summary
    and, when the outcome has no link, the placeholder [NO_SOURCES], and
    otherwise the fragments of the links put end to end, each an anchor on
    the link's url that shows its title, followed by the separator and its
    source. *)
Theorem run_agent_links_markup
    (ddgs_text : pystr -> Z -> exn + list raw) (pipeline : exn + model)
    (q : pystr) :
  (q = [] \/ len (strip q) < 3 ->
   run_agent ddgs_text pipeline q = (inr (QUERY_TOO_SHORT, []), []))
  /\ (q <> [] -> 3 <= len (strip q) ->
      exists output s ls tr,
        app_invoke ddgs_text pipeline
          {| query := Some (strip q); results := None; summary := None;
             links := None |}
        = (inr output, tr)
        /\ summary output = Some s /\ links output = Some ls
        /\ Forall well_formed ls
        /\ run_agent ddgs_text pipeline q
           = (inr (s, match ls with
                      | [] => NO_SOURCES
                      | _ :: _ => List.concat (Spec.render <$> ls)
                      end), tr)).
Proof.
  split.
  { intros Hq. apply too_short_iff in Hq. unfold run_agent. now rewrite Hq. }
  intros Hne Hlen.
  assert (Hq : too_short q = false) by now apply too_short_false.
  destruct (app_invoke_returns ddgs_text pipeline (strip q))
    as (docs & s & tr & Hinv & Hwf & Hdocs).
  assert (Hlinks : Forall well_formed (link_of <$> docs)).
  { apply Forall_fmap. eapply Forall_impl; [exact Hwf|].
    intros d. apply link_of_well_formed. }
  eexists _, s, (link_of <$> docs), tr.
  split; [exact Hinv|]. split; [reflexivity|]. split; [reflexivity|].
  split; [exact Hlinks|].
  unfold run_agent. rewrite Hq, (bind_inr _ _ _ _ Hinv).
  cbn [summary links default from_option id fst snd].
  rewrite take_ge by (rewrite length_fmap; exact Hdocs).
  rewrite (format_fold _ _ Hlinks). unfold ret, try_except.
  cbn [fst snd app]. rewrite app_nil_r.
  now destruct (link_of <$> docs).
Qed.

(** ** Examples of the design document *)

Example source_after_em_dash : title_source (lit "A — B") = lit "B".
Proof. reflexivity. Qed.

Example source_after_hyphen : title_source (lit "A - B") = lit "B".
Proof. reflexivity. Qed.

Example source_without_separator : title_source (lit "Plain") = lit "Plain".
Proof. reflexivity. Qed.

Example duplicate_url_dropped :
  _clean_search_results [Dict Sample.doc_test; Dict Sample.doc_test]
  = [document Sample.doc_test].
Proof. reflexivity. Qed.

(** Two raw results under one url: one document, whose short text is the
    summary, and one link. *)
Example test_topic :
  run_agent Sample.ddgs_twice Sample.loaded (lit "Test Topic")
  = (inr (lit "Test" ++ [NEWLINE] ++ lit "short text",
          Spec.fragment (lit "Test") (lit "http://t") (lit "Test")),
     [node_run "search"; ddgs_text_call (lit "Test Topic") 10;
      node_run "summarize"]).
Proof. vm_compute. reflexivity. Qed.

(** No raw result: the marker of the node and the placeholder for the
    links. *)
Example nothing_found :
  run_agent (fun _ _ => inr []) Sample.loaded (lit "Test Topic")
  = (inr (NO_RESULTS, NO_SOURCES),
     [node_run "search"; ddgs_text_call (lit "Test Topic") 10;
      node_run "summarize"]).
Proof. vm_compute. reflexivity. Qed.

(** ** Where the design document and the code part *)

(** C3: the model was not loaded; for a text of five words [summarize]
    answers the marker [NO_DATA], not the text. *)
Lemma summarize_short_text_counterexample :
  Sample.five_words <> []
  /\ word_count Sample.five_words = 5
  /\ summarize Sample.not_loaded Sample.five_words = (inr NO_DATA, [])
  /\ outcome (summarize Sample.not_loaded Sample.five_words)
     <> inr (strip Sample.five_words).
Proof.
  split; [discriminate|]. split; [reflexivity|]. split; [reflexivity|].
  vm_compute. discriminate.
Qed.

(** C5: the title [A - B] has a hyphen and no em-dash, and the link keeps
    it whole; an empty title gives an empty title, not the placeholder. *)
Lemma summarize_node_link_fields_counterexample :
  exists upd l1 l2,
    outcome (summarize_node Sample.loaded
               (Sample.with_results
                  [Sample.document_hyphen; Sample.document_no_title]))
    = inr upd
    /\ links upd = Some [l1; l2]
    /\ l1 !! "title" = Some (lit "A - B")
    /\ Spec.link_title (lit "A - B") = lit "A"
    /\ l2 !! "title" = Some []
    /\ Spec.link_title [] = LINK_TITLE
    /\ LINK_TITLE <> [].
Proof.
  eexists _, _, _. split; [vm_compute; reflexivity|].
  split; [reflexivity|]. split; [reflexivity|]. split; [reflexivity|].
  split; [reflexivity|]. split; [reflexivity | discriminate].
Qed.

(** C6: [href] is present and empty, so the first present alias gives an
    empty url, and yet the record is accepted, under the url found in
    [url]. *)
Lemma clean_search_results_skip_rule_counterexample :
  Spec.first_present Sample.doc_empty_href ["href"; "url"] = []
  /\ _clean_search_results [Dict Sample.doc_empty_href]
     = [document Sample.doc_empty_href]
  /\ document Sample.doc_empty_href !! "url" = Some (lit "http://b").
Proof. split; [reflexivity|]. split; reflexivity. Qed.


(** ** The theorems at sample inputs *)

Lemma summarize_length_bounds_witness :
  10 <= word_count Sample.three_hundred_words
  /\ word_count Sample.three_hundred_words = 300
  /\ trace (summarize Sample.loaded Sample.three_hundred_words)
     = [summarizer_call (strip Sample.three_hundred_words) 130 30]
  /\ 30 <= 30 <= 130 /\ 130 <= 130.
Proof.
  assert (H : 10 <= word_count Sample.three_hundred_words)
    by (vm_compute; discriminate).
  assert (H300 : word_count Sample.three_hundred_words = 300)
    by (vm_compute; reflexivity).
  split; [exact H|]. split; [exact H300|].
  pose proof (summarize_length_bounds Sample.loaded
                Sample.three_hundred_words H) as [Hcall Hbounds].
  split; [|exact (Hbounds H300)].
  rewrite Hcall. cbv zeta. rewrite H300. reflexivity.
Defined.

Lemma summarize_short_text_witness :
  Sample.five_words <> []
  /\ word_count Sample.five_words < 10
  /\ summarize (inr Sample.model_ok) Sample.five_words
     = (inr (lit "one two  three four five"), [])
  /\ summarize (inl (Exception [])) Sample.five_words = (inr NO_DATA, []).
Proof.
  assert (Hne : Sample.five_words <> []) by (vm_compute; discriminate).
  assert (HW : word_count Sample.five_words < 10) by (vm_compute; reflexivity).
  split; [exact Hne|]. split; [exact HW|].
  exact (summarize_short_text Sample.model_ok (Exception [])
           Sample.five_words Hne HW).
Defined.

Lemma min_len_between_15_and_30_witness :
  10 <= 10 /\ 10 <= 60
  /\ 15 <= min_len_of (max_len_of 10) <= 30
  /\ min_len_of (max_len_of 10) <= max_len_of 10
  /\ max_len_of 10 = 30 /\ min_len_of (max_len_of 10) = 15
  /\ min_len_of (max_len_of 10) < 30.
Proof.
  assert (H : 10 <= 10) by lia.
  assert (H60 : 10 <= 60) by lia.
  destruct (min_len_between_15_and_30 10 H) as (Hrange & Hle & Hsmall).
  split; [exact H|]. split; [exact H60|]. split; [exact Hrange|].
  split; [exact Hle | exact (Hsmall H60)].
Defined.

Lemma clean_search_results_source_witness :
  document Sample.doc_a ∈ _clean_search_results Sample.batch
  /\ exists r : dict,
       Dict r ∈ Sample.batch /\ document Sample.doc_a = document r
       /\ document Sample.doc_a !! "source"
          = Some (take 100 (strip (last_seg
                    (split_on (Spec.separator (raw_title r)) (raw_title r))))).
Proof.
  assert (H : document Sample.doc_a ∈ _clean_search_results Sample.batch)
    by (vm_compute; constructor).
  split; [exact H|].
  destruct (clean_search_results_source _ _ H) as (r & Hin & Hdoc & Hsrc & _).
  exists r. split; [exact Hin|]. split; [exact Hdoc | exact Hsrc].
Defined.

Lemma clean_search_results_skip_rule_witness :
  Sample.doc_no_url !! "href" = None
  /\ Sample.doc_no_url !! "url" = None
  /\ _clean_search_results
       ([Dict Sample.doc_a] ++ Dict Sample.doc_no_url :: [Dict Sample.doc_empty_href])
     = _clean_search_results ([Dict Sample.doc_a] ++ [Dict Sample.doc_empty_href])
  /\ cleaned_of ([Dict Sample.doc_a] ++ [Dict Sample.doc_a_again])
     = cleaned_of [Dict Sample.doc_a].
Proof.
  assert (Hhref : Sample.doc_no_url !! "href" = None) by reflexivity.
  assert (Hurl : Sample.doc_no_url !! "url" = None) by reflexivity.
  split; [exact Hhref|]. split; [exact Hurl|].
  destruct (clean_search_results_skip_rule [Dict Sample.doc_a] Sample.doc_no_url)
    as (_ & _ & _ & _ & _ & Hskip).
  split; [exact (Hskip Hhref Hurl _)|].
  destruct (clean_search_results_skip_rule [Dict Sample.doc_a] Sample.doc_a_again)
    as (_ & _ & _ & _ & Hstep & _).
  rewrite Hstep. reflexivity.
Defined.

Lemma summarize_node_link_fields_witness :
  results (Sample.with_results [Sample.document_hyphen; Sample.document_bare])
  = Some [Sample.document_hyphen; Sample.document_bare]
  /\ exists upd ls,
       outcome (summarize_node Sample.loaded
                  (Sample.with_results
                     [Sample.document_hyphen; Sample.document_bare]))
       = inr upd
       /\ links upd = Some ls
       /\ (List.length ls = 2)%nat.
Proof.
  split; [reflexivity|].
  destruct (summarize_node_link_fields Sample.loaded
              (Sample.with_results [Sample.document_hyphen; Sample.document_bare])
              Sample.document_hyphen [Sample.document_bare] eq_refl)
    as (upd & ls & Hout & Hlinks & Hall).
  exists upd, ls. split; [exact Hout|]. split; [exact Hlinks|].
  apply Forall2_length in Hall. now rewrite <- Hall.
Defined.

Lemma short_query_rejected_witness :
  (lit "ab" = [] \/ len (strip (lit "ab")) < 3)
  /\ search Sample.ddgs_ok (lit "ab") = (inr [], [])
  /\ run_agent Sample.ddgs_ok Sample.loaded (lit "ab")
     = (inr (QUERY_TOO_SHORT, []), []).
Proof.
  assert (H : lit "ab" = [] \/ len (strip (lit "ab")) < 3)
    by (right; vm_compute; reflexivity).
  split; [exact H|].
  exact (short_query_rejected Sample.ddgs_ok Sample.loaded (lit "ab") H).
Defined.

Lemma stages_never_raise_witness :
  Sample.ddgs_down (lit "abc") 10 = inl (Exception (lit "timed out"))
  /\ outcome (search Sample.ddgs_down (lit "abc")) = inr []
  /\ summarizer_call (strip Sample.twelve_words) 30 15
       ∈ trace (summarize (inr Sample.model_raises) Sample.twelve_words)
  /\ outcome (summarize (inr Sample.model_raises) Sample.twelve_words)
     = inr SUMMARY_ERROR.
Proof.
  destruct (stages_never_raise Sample.ddgs_down Sample.loaded
              Sample.model_raises (Exception []) (lit "abc")
              Sample.twelve_words)
    as (_ & Hsearch & _ & _ & Hraise & _).
  assert (Hdown : Sample.ddgs_down (lit "abc") 10
                  = inl (Exception (lit "timed out"))) by reflexivity.
  assert (Hcall : summarizer_call (strip Sample.twelve_words) 30 15
                    ∈ trace (summarize (inr Sample.model_raises)
                               Sample.twelve_words))
    by (vm_compute; constructor).
  split; [exact Hdown|]. split; [exact (Hsearch _ Hdown)|].
  split; [exact Hcall|].
  exact (Hraise _ _ _ _ Hcall eq_refl).
Defined.

Lemma run_agent_links_markup_witness :
  (lit "ab" = [] \/ len (strip (lit "ab")) < 3)
  /\ run_agent Sample.ddgs_ok Sample.loaded (lit "ab")
     = (inr (QUERY_TOO_SHORT, []), [])
  /\ lit "abc" <> [] /\ 3 <= len (strip (lit "abc"))
  /\ exists output s ls tr,
       app_invoke Sample.ddgs_ok Sample.loaded
         {| query := Some (strip (lit "abc")); results := None;
            summary := None; links := None |}
       = (inr output, tr)
       /\ summary output = Some s /\ links output = Some ls
       /\ Forall well_formed ls
       /\ run_agent Sample.ddgs_ok Sample.loaded (lit "abc")
          = (inr (s, match ls with
                     | [] => NO_SOURCES
                     | _ :: _ => List.concat (Spec.render <$> ls)
                     end), tr).
Proof.
  assert (Hshort : lit "ab" = [] \/ len (strip (lit "ab")) < 3)
    by (right; vm_compute; reflexivity).
  assert (Hne : lit "abc" <> []) by (vm_compute; discriminate).
  assert (Hlen : 3 <= len (strip (lit "abc"))) by (vm_compute; discriminate).
  split; [exact Hshort|].
  split; [exact (proj1 (run_agent_links_markup Sample.ddgs_ok Sample.loaded
                          (lit "ab")) Hshort)|].
  split; [exact Hne|]. split; [exact Hlen|].
  exact (proj2 (run_agent_links_markup Sample.ddgs_ok Sample.loaded
                  (lit "abc")) Hne Hlen).
Defined.


(** * Further properties of the code *)

(** ** More facts about strings *)

Section MoreStringFacts.

Implicit Types (s t : pystr) (c sep : N).

Lemma elem_of_rev c s : c ∈ rev s <-> c ∈ s.
Proof. rewrite !list_elem_of_In. symmetry. apply in_rev. Qed.

Lemma lstrip_subseteq s c : c ∈ lstrip s -> c ∈ s.
Proof.
  induction s as [|a s IH]; simpl; [tauto|].
  destruct (isspace a); [|tauto].
  intros H. apply elem_of_cons. right. now apply IH.
Qed.

Lemma rstrip_subseteq s c : c ∈ rstrip s -> c ∈ s.
Proof.
  unfold rstrip. rewrite elem_of_rev. intros H.
  apply lstrip_subseteq in H. now apply elem_of_rev.
Qed.

Lemma strip_subseteq s c : c ∈ strip s -> c ∈ s.
Proof.
  unfold strip. intros H. now apply lstrip_subseteq, rstrip_subseteq.
Qed.

Lemma before_subseteq sep s c : c ∈ Spec.before sep s -> c ∈ s.
Proof.
  induction s as [|a s IH]; simpl; [tauto|].
  destruct (a =? sep)%N; [intros H; inversion H|].
  rewrite !elem_of_cons. intros [->|H]; [now left | right; now apply IH].
Qed.

Lemma before_no_sep sep s : sep ∉ Spec.before sep s.
Proof.
  induction s as [|a s IH]; simpl; [apply not_elem_of_nil|].
  destruct (N.eqb_spec a sep) as [->|Hne]; [apply not_elem_of_nil|].
  apply not_elem_of_cons. split; [congruence | exact IH].
Qed.

Lemma after_last_no_sep sep s : sep ∉ Spec.after_last sep s.
Proof.
  unfold Spec.after_last. rewrite elem_of_rev. apply before_no_sep.
Qed.

Lemma after_last_subseteq sep s c : c ∈ Spec.after_last sep s -> c ∈ s.
Proof.
  unfold Spec.after_last. rewrite elem_of_rev. intros H.
  apply before_subseteq in H. now apply elem_of_rev.
Qed.

(** What [lstrip] leaves is empty or starts with a character that is not
    white space. *)
Lemma lstrip_cases s :
  lstrip s = [] \/ exists c t, lstrip s = c :: t /\ isspace c = false.
Proof.
  induction s as [|a s IH]; simpl; [now left|].
  destruct (isspace a) eqn:Ha; [exact IH|].
  right. now exists a, s.
Qed.

Lemma lstrip_idem s : lstrip (lstrip s) = lstrip s.
Proof.
  destruct (lstrip_cases s) as [-> | (c & t & -> & Hc)]; [reflexivity|].
  simpl. now rewrite Hc.
Qed.

Lemma lstrip_snoc s c : isspace c = false -> lstrip (s ++ [c]) = lstrip s ++ [c].
Proof.
  intros Hc. induction s as [|a s IH]; simpl.
  - now rewrite Hc.
  - destruct (isspace a); [exact IH | reflexivity].
Qed.

Lemma rstrip_cons c s : isspace c = false -> rstrip (c :: s) = c :: rstrip s.
Proof.
  intros Hc. unfold rstrip. cbn [rev].
  rewrite (lstrip_snoc _ _ Hc), rev_app_distr. reflexivity.
Qed.

Lemma rstrip_idem s : rstrip (rstrip s) = rstrip s.
Proof. unfold rstrip. now rewrite rev_involutive, lstrip_idem. Qed.

(** Trimming twice is trimming once. *)
Lemma strip_idem s : strip (strip s) = strip s.
Proof.
  unfold strip.
  destruct (lstrip_cases s) as [-> | (c & t & -> & Hc)]; [reflexivity|].
  rewrite (rstrip_cons _ _ Hc). cbn [lstrip]. rewrite Hc.
  rewrite <- (rstrip_cons _ _ Hc). apply rstrip_idem.
Qed.

Lemma len_take_le (n : nat) s : len (take n s) <= Z.of_nat n.
Proof. unfold len. rewrite length_take. lia. Qed.

End MoreStringFacts.

(** ** More on the loop of the Retriever *)

Section MoreRetriever.

Implicit Types (r : dict) (st : gset pystr * list dict) (results : list raw).

(** Items that are not records leave the loop where it is. *)
Lemma fold_records results st :
  fold_left clean_step results st
  = fold_left clean_step (Dict <$> records results) st.
Proof.
  revert st. induction results as [|x results IH]; intros st; [reflexivity|].
  destruct x as [|r]; cbn [fold_left].
  - destruct st as [seen cleaned]. exact (IH (seen, cleaned)).
  - unfold records. cbn [omap list_omap fmap list_fmap fold_left]. apply IH.
Qed.

(** The set [seen_urls] only grows. *)
Lemma seen_step_mono st x u : u ∈ st.1 -> u ∈ (clean_step st x).1.
Proof.
  destruct st as [seen cleaned]. destruct x as [|r]; [tauto|].
  rewrite clean_step_dict. case_decide; cbn [fst]; [tauto | set_solver].
Qed.

Lemma seen_mono results st u :
  u ∈ st.1 -> u ∈ (fold_left clean_step results st).1.
Proof.
  revert st. induction results as [|x results IH]; intros st Hu; [exact Hu|].
  cbn [fold_left]. apply IH. now apply seen_step_mono.
Qed.

(** After the turn of a record with a url and a title, its url has been
    seen. *)
Lemma seen_after_step st r :
  raw_url r <> [] -> raw_title r <> [] ->
  raw_url r ∈ (clean_step st (Dict r)).1.
Proof.
  intros Hu Ht. destruct st as [seen cleaned]. rewrite clean_step_dict.
  case_decide as Hskip; cbn [fst]; [|set_solver].
  unfold skipped in Hskip. tauto.
Qed.

Lemma seen_covers results st r :
  Dict r ∈ results -> raw_url r <> [] -> raw_title r <> [] ->
  raw_url r ∈ (fold_left clean_step results st).1.
Proof.
  revert st. induction results as [|x results IH]; intros st Hin Hu Ht.
  - inversion Hin.
  - cbn [fold_left]. apply elem_of_cons in Hin as [<-|Hin].
    + apply seen_mono. now apply seen_after_step.
    + now apply IH.
Qed.

(** When the urls of all its records have been seen, a batch adds nothing. *)
Lemma fold_all_seen results st :
  (forall r, Dict r ∈ results -> raw_url r <> [] -> raw_title r <> [] ->
             raw_url r ∈ st.1) ->
  fold_left clean_step results st = st.
Proof.
  induction results as [|x results IH]; intros Hall; [reflexivity|].
  cbn [fold_left].
  assert (Hstep : clean_step st x = st).
  { destruct st as [seen cleaned]. destruct x as [|r]; [reflexivity|].
    apply clean_step_skip. unfold skipped.
    destruct (decide (raw_url r = [])) as [|Hu]; [tauto|].
    destruct (decide (raw_title r = [])) as [|Ht]; [tauto|].
    right. right. apply (Hall r); [apply elem_of_cons; now left | done | done]. }
  rewrite Hstep. apply IH. intros r Hin. apply Hall.
  apply elem_of_cons. now right.
Qed.

(** The urls seen are those of records of the batch that have a title. *)
Lemma seen_origin results u :
  u ∈ (fold_left clean_step results (∅, [])).1 ->
  exists r, Dict r ∈ results /\ raw_url r = u /\ raw_title r <> [].
Proof.
  intros Hu.
  pose proof (loop_inv_fold results (∅, []) loop_inv_init) as [Hseen _].
  apply Hseen in Hu. unfold urls in Hu.
  apply list_elem_of_fmap in Hu as (d & Hd & Hin).
  apply fold_documents in Hin as [Hin | (r & Hr & _ & Ht & ->)];
    [inversion Hin|].
  exists r. rewrite document_url in Hd. split; [exact Hr|].
  split; [congruence | exact Ht].
Qed.

Lemma cleaned_of_urls_NoDup results : NoDup (urls (cleaned_of results)).
Proof. apply (loop_inv_fold results (∅, []) loop_inv_init). Qed.

End MoreRetriever.

(** X1. Every document returned by [_clean_search_results] has the four
    fields [title], [content], [url] and [source]; its title and its url are
    not empty, and its title, content and source have at most 200, 500 and
    100 characters. *)
Theorem clean_search_results_field_bounds (results : list raw) (d : dict) :
  d ∈ _clean_search_results results ->
  exists title content url source,
    d !! "title" = Some title /\ d !! "content" = Some content
    /\ d !! "url" = Some url /\ d !! "source" = Some source
    /\ title <> [] /\ url <> []
    /\ len title <= 200 /\ len content <= 500 /\ len source <= 100.
Proof.
  intros Hd. apply subseteq_take in Hd.
  apply fold_documents in Hd as [Hd | (r & _ & Hu & Ht & ->)];
    [inversion Hd|].
  eexists _, _, _, _.
  rewrite document_title, document_content, document_url, document_source.
  repeat (split; [reflexivity|]).
  split; [destruct (raw_title r); [congruence | discriminate]|].
  split; [exact Hu|].
  split; [apply (len_take_le 200)|]. split; [apply (len_take_le 500)|].
  apply (len_take_le 100).
Qed.

(** X2. The items of a batch that are not records change nothing:
    [_clean_search_results] returns what it returns on the records alone. *)
Theorem clean_search_results_ignores_non_records (results : list raw) :
  _clean_search_results results
  = _clean_search_results (Dict <$> records results).
Proof.
  unfold _clean_search_results, cleaned_of. now rewrite fold_records.
Qed.

(** X3. First occurrence wins: a record with a url and a title, before
    which no record with a title has the same url, is accepted, and its
    document stands in the returned list at the place after the documents
    accepted before it, when fewer than five were. *)
Theorem clean_search_results_first_occurrence
    (pre post : list raw) (r : dict) :
  raw_url r <> [] -> raw_title r <> [] ->
  (forall r', Dict r' ∈ pre -> raw_url r' = raw_url r -> raw_title r' = []) ->
  (List.length (cleaned_of pre) < 5)%nat ->
  _clean_search_results (pre ++ Dict r :: post)
    !! List.length (cleaned_of pre)
  = Some (document r).
Proof.
  intros Hu Ht Hfirst Hlen.
  unfold _clean_search_results, cleaned_of in *.
  rewrite fold_left_app. cbn [fold_left].
  assert (Hnew : raw_url r ∉ (fold_left clean_step pre (∅, [])).1).
  { intros Hin. apply seen_origin in Hin as (r' & Hr' & Heq & Ht').
    apply Ht'. now apply Hfirst. }
  destruct (fold_left clean_step pre (∅, [])) as [seen cleaned].
  cbn [fst snd] in *.
  rewrite clean_step_accept by (unfold skipped; tauto).
  destruct (fold_appends post ({[raw_url r]} ∪ seen) (cleaned ++ [document r]))
    as (more & _ & ->).
  rewrite lookup_take_lt by exact Hlen.
  rewrite <- app_assoc. apply list_lookup_middle. reflexivity.
Qed.

(** X4. A record whose url is that of an earlier record with a url and
    a title changes nothing in what is returned. *)
Theorem clean_search_results_later_duplicate
    (pre mid post : list raw) (r r2 : dict) :
  raw_url r <> [] -> raw_title r <> [] -> raw_url r2 = raw_url r ->
  _clean_search_results (pre ++ Dict r :: mid ++ Dict r2 :: post)
  = _clean_search_results (pre ++ Dict r :: mid ++ post).
Proof.
  intros Hu Ht Heq. unfold _clean_search_results, cleaned_of.
  rewrite !fold_left_app. cbn [fold_left]. rewrite !fold_left_app.
  cbn [fold_left].
  set (st0 := fold_left clean_step pre (∅, [])).
  assert (Hseen : raw_url r ∈ (fold_left clean_step mid
                                 (clean_step st0 (Dict r))).1).
  { apply seen_mono. now apply seen_after_step. }
  destruct (fold_left clean_step mid (clean_step st0 (Dict r)))
    as [seen cleaned].
  rewrite clean_step_skip; [reflexivity|].
  unfold skipped. right. right. now rewrite Heq.
Qed.

(** X5. A batch followed by itself gives what the batch gives. *)
Theorem clean_search_results_twice (results : list raw) :
  _clean_search_results (results ++ results) = _clean_search_results results.
Proof.
  unfold _clean_search_results, cleaned_of. rewrite fold_left_app.
  rewrite fold_all_seen; [reflexivity|].
  intros r Hin Hu Ht. now apply seen_covers.
Qed.

(** X6. The source of a returned document holds no em-dash, and no
    hyphen either when the title of its record has no em-dash. *)
Theorem clean_search_results_source_no_separator
    (results : list raw) (d : dict) :
  d ∈ _clean_search_results results ->
  exists (r : dict) (source : pystr),
    Dict r ∈ results /\ d = document r /\ d !! "source" = Some source
    /\ (EM_DASH ∉ source)
    /\ (EM_DASH ∉ raw_title r -> HYPHEN ∉ source).
Proof.
  intros Hd. apply subseteq_take in Hd.
  apply fold_documents in Hd as [Hd | (r & Hin & _ & _ & ->)];
    [inversion Hd|].
  exists r, (take 100 (title_source (raw_title r))).
  split; [exact Hin|]. split; [reflexivity|].
  split; [apply document_source|].
  unfold title_source. rewrite !last_seg_split_on.
  destruct (contains EM_DASH (raw_title r)) eqn:Hc.
  - apply contains_elem_of in Hc. split; [|tauto].
    intros H. apply subseteq_take, strip_subseteq in H.
    now apply after_last_no_sep in H.
  - apply contains_false in Hc. split.
    + intros H. apply subseteq_take, strip_subseteq, after_last_subseteq in H.
      tauto.
    + intros _ H. apply subseteq_take, strip_subseteq in H.
      now apply after_last_no_sep in H.
Qed.

(** ** More on the summariser *)

Section MoreSummarize.

Variable pipeline : exn + model.

(** The trace of [summarize]: nothing, or one call to the model on a
    text of at least ten words. *)
Lemma summarize_trace text :
  trace (summarize pipeline text) = []
  \/ exists m, pipeline = inr m /\ 10 <= word_count text
       /\ trace (summarize pipeline text)
          = [summarizer_call (strip text) (max_len_of (word_count text))
               (min_len_of (max_len_of (word_count text)))].
Proof.
  destruct pipeline as [e|m]; [left; now rewrite summarize_unavailable|].
  destruct text as [|c text]; [now left|].
  destruct (Z.lt_ge_cases (word_count (c :: text)) 10) as [HW|HW].
  - left. rewrite summarize_short; [reflexivity | discriminate | exact HW].
  - right. exists m. split; [reflexivity|]. split; [exact HW|].
    now rewrite (summarize_long m _ HW).
Qed.

(** On a trimmed text [summarize] answers an empty string only when the
    model does. *)
Lemma summarize_answer text :
  outcome (summarize pipeline (strip text)) = inr []
  -> exists m r0 rest mx mn,
       pipeline = inr m /\ m (strip text) mx mn = inr (r0 :: rest)
       /\ r0 !! "summary_text" = Some [].
Proof.
  destruct pipeline as [e|m]; [rewrite summarize_unavailable; discriminate|].
  destruct (strip text) as [|c t] eqn:Hstrip; [discriminate|].
  destruct (Z.lt_ge_cases (word_count (c :: t)) 10) as [HW|HW].
  - rewrite summarize_short; [|discriminate | exact HW].
    rewrite <- Hstrip, strip_idem, Hstrip. discriminate.
  - rewrite (summarize_long m _ HW). unfold outcome, fst, summary_of.
    rewrite <- Hstrip, strip_idem, Hstrip.
    destruct (m (c :: t) _ _) as [e|[|r0 rest]] eqn:Hm; [discriminate..|].
    destruct (r0 !! "summary_text") as [s|] eqn:Hs; [|discriminate].
    cbn [default from_option id]. intros [= ->].
    eexists m, r0, rest, _, _. split; [reflexivity|].
    split; [exact Hm | exact Hs].
Qed.

End MoreSummarize.

(** X7. On a text of at least ten words and with the model loaded,
    [summarize] returns the [summary_text] of the first record the model
    answers; it returns the marker [NO_SUMMARY] when the model answers no
    record, and the marker [SUMMARY_ERROR] when the first record has no
    [summary_text] or the model raises. The model is called once. *)
Theorem summarize_reads_model_answer (m : model) (text : pystr) :
  10 <= word_count text ->
  let answer :=
    m (strip text) (max_len_of (word_count text))
      (min_len_of (max_len_of (word_count text))) in
  List.length (trace (summarize (inr m) text)) = 1%nat
  /\ (forall r0 rest s, answer = inr (r0 :: rest) ->
        r0 !! "summary_text" = Some s ->
        outcome (summarize (inr m) text) = inr s)
  /\ (answer = inr [] -> outcome (summarize (inr m) text) = inr NO_SUMMARY)
  /\ (forall r0 rest, answer = inr (r0 :: rest) ->
        r0 !! "summary_text" = None ->
        outcome (summarize (inr m) text) = inr SUMMARY_ERROR)
  /\ (forall e, answer = inl e ->
        outcome (summarize (inr m) text) = inr SUMMARY_ERROR).
Proof.
  intros HW answer. rewrite (summarize_long m text HW).
  fold answer. unfold outcome, trace, fst, snd, summary_of.
  split; [reflexivity|]. split; [|split; [|split]].
  - intros r0 rest s -> Hs. now rewrite Hs.
  - now intros ->.
  - intros r0 rest -> Hs. now rewrite Hs.
  - now intros e ->.
Qed.

(** X8. The length bounds by the number of words: [max_len] is 30 below
    62 words, half the number of words from 62 to 259, and 130 from 260 on;
    [min_len] is 30 exactly from 120 words on; and more words never give a
    smaller [max_len]. *)
Theorem length_bounds_by_word_count (W W' : Z) :
  (W < 62 -> max_len_of W = 30)
  /\ (62 <= W < 260 -> max_len_of W = W / 2)
  /\ (260 <= W -> max_len_of W = 130)
  /\ (min_len_of (max_len_of W) = 30 <-> 120 <= W)
  /\ (W <= W' -> max_len_of W <= max_len_of W').
Proof.
  unfold max_len_of, min_len_of.
  assert (H2 : 2 * (W / 2) <= W < 2 * (W / 2) + 2).
  { pose proof (Z.div_mod W 2 ltac:(lia)). pose proof (Z.mod_pos_bound W 2).
    lia. }
  assert (H2' : 2 * (W' / 2) <= W' < 2 * (W' / 2) + 2).
  { pose proof (Z.div_mod W' 2 ltac:(lia)). pose proof (Z.mod_pos_bound W' 2).
    lia. }
  split; [lia|]. split; [lia|]. split; [lia|]. split.
  - set (mx := Z.min 130 (Z.max 30 (W / 2))).
    assert (Hmx : 2 * (mx / 2) <= mx < 2 * (mx / 2) + 2).
    { pose proof (Z.div_mod mx 2 ltac:(lia)).
      pose proof (Z.mod_pos_bound mx 2). lia. }
    subst mx. lia.
  - lia.
Qed.

(** ** More on the graph *)

Section MorePipeline.

Variable ddgs_text : pystr -> Z -> exn + list raw.
Variable pipeline : exn + model.

Lemma too_short_strip q : too_short q = false -> too_short (strip q) = false.
Proof.
  intros Hq. apply (too_short_false ddgs_text) in Hq as [_ Hlen].
  apply (too_short_false ddgs_text). rewrite strip_idem.
  split; [|exact Hlen].
  intros Heq. rewrite Heq in Hlen. unfold len in Hlen. simpl in Hlen. lia.
Qed.

Lemma search_found q :
  too_short q = false ->
  search ddgs_text q = (inr (found ddgs_text q), [ddgs_text_call q 10]).
Proof. intros Hq. now rewrite search_long. Qed.

Lemma found_well_formed q : Forall well_formed (found ddgs_text q).
Proof.
  unfold found. destruct (ddgs_text q 10); [constructor|].
  apply clean_search_results_well_formed.
Qed.

Lemma found_length q : (List.length (found ddgs_text q) <= 5)%nat.
Proof.
  unfold found. destruct (ddgs_text q 10); [simpl; lia|].
  unfold _clean_search_results. rewrite length_take. lia.
Qed.

Lemma found_urls_NoDup q : NoDup (urls (found ddgs_text q)).
Proof.
  unfold found. destruct (ddgs_text q 10); [constructor|].
  unfold _clean_search_results, urls. rewrite fmap_take.
  exact (sublist_NoDup _ _ (cleaned_of_urls_NoDup _) (sublist_take _ 5)).
Qed.

(** The text the loop of [summarize_node] builds. *)
Lemma node_fold_text docs st :
  (fold_left node_step docs st).1 = st.1 ++ aggregate docs.
Proof.
  revert st. induction docs as [|d docs IH]; intros [text lks];
    cbn [fold_left].
  - unfold aggregate. simpl. now rewrite app_nil_r.
  - unfold node_step at 2. rewrite IH. unfold aggregate, block.
    cbn [fst fmap list_fmap List.concat]. now rewrite <- !app_assoc.
Qed.

(** [summarize_node] on a list of documents that is not empty: the
    summary of the trimmed blocks, and the links, of the first five. *)
Lemma summarize_node_run state d docs s tr :
  results state = Some (d :: docs) ->
  summarize pipeline (strip (aggregate (take 5 (d :: docs)))) = (inr s, tr) ->
  summarize_node pipeline state
  = (inr {| query := None; results := None;
            summary := Some (if truthy s then s else EMPTY_SUMMARY);
            links := Some (link_of <$> take 5 (d :: docs)) |}, tr).
Proof.
  intros Hres Hsum. unfold summarize_node. rewrite Hres.
  cbn [default from_option id].
  pose proof (node_fold_links (take 5 (d :: docs)) ([], [])) as Hlinks.
  pose proof (node_fold_text (take 5 (d :: docs)) ([], [])) as Htext.
  destruct (fold_left node_step (take 5 (d :: docs)) ([], []))
    as [combined_text valid_links].
  cbn [fst snd app] in Hlinks, Htext. subst valid_links combined_text.
  rewrite Hsum. unfold bind, ret. rewrite app_nil_r.
  rewrite (take_ge (link_of <$> _)); [reflexivity|].
  rewrite length_fmap, length_take. lia.
Qed.

(** The graph, from what its two nodes do. *)
Lemma app_invoke_run q docs tr1 s lks tr2 :
  search ddgs_text (strip q) = (inr docs, tr1) ->
  summarize_node pipeline
    {| query := Some q; results := Some docs; summary := None; links := None |}
  = (inr {| query := None; results := None; summary := Some s;
            links := Some lks |}, tr2) ->
  app_invoke ddgs_text pipeline (initial q)
  = (inr {| query := Some q; results := Some docs; summary := Some s;
            links := Some lks |},
     node_run "search" :: tr1 ++ node_run "summarize" :: tr2).
Proof.
  intros Hsearch Hnode.
  unfold app_invoke, run_node, enter, search_node, initial, bind, ret.
  cbn [query default from_option id]. rewrite Hsearch.
  unfold update. cbn [query results summary links from_option].
  rewrite Hnode. cbn [query results summary links from_option].
  rewrite !app_nil_r. reflexivity.
Qed.

(** The summary of the node [summarize] is never empty, and its trace is
    that of [summarize]. *)
Lemma summarize_node_answers q docs :
  (List.length docs <= 5)%nat ->
  exists s calls,
    s <> []
    /\ summarize_node pipeline
         {| query := Some q; results := Some docs; summary := None;
            links := None |}
       = (inr {| query := None; results := None; summary := Some s;
                 links := Some (link_of <$> docs) |}, calls)
    /\ (docs = [] -> s = NO_RESULTS /\ calls = [])
    /\ (docs <> [] ->
        calls = trace (summarize pipeline (strip (aggregate docs)))
        /\ forall s', outcome (summarize pipeline (strip (aggregate docs)))
                      = inr s' -> s' <> [] -> s = s').
Proof.
  clear ddgs_text. intros Hlen. destruct docs as [|d docs].
  - exists NO_RESULTS, []. split; [discriminate|].
    split; [reflexivity|]. split; [tauto | congruence].
  - destruct (summarize_returns pipeline (strip (aggregate (d :: docs))))
      as [s Hs].
    destruct (summarize pipeline (strip (aggregate (d :: docs))))
      as [[e|s'] tr] eqn:Hsum; [discriminate Hs|].
    exists (if truthy s' then s' else EMPTY_SUMMARY), tr.
    split; [destruct s'; discriminate|]. split.
    + rewrite <- (take_ge (d :: docs) 5 Hlen) at 2.
      apply summarize_node_run; [reflexivity|].
      now rewrite (take_ge (d :: docs) 5 Hlen).
    + split; [congruence|]. intros _. split; [reflexivity|].
      intros s'' [= <-] Hne. destruct s'; [congruence | reflexivity].
Qed.

(** [run_agent] on a query that passes the validation. *)
Lemma run_agent_valid q :
  too_short q = false ->
  exists s calls,
    s <> []
    /\ summarize_node pipeline
         {| query := Some (strip q);
            results := Some (found ddgs_text (strip q));
            summary := None; links := None |}
       = (inr {| query := None; results := None; summary := Some s;
                 links := Some (link_of <$> found ddgs_text (strip q)) |},
          calls)
    /\ run_agent ddgs_text pipeline q
       = (inr (s, links_markup (link_of <$> found ddgs_text (strip q))),
          graph_events (strip q) ++ calls).
Proof.
  intros Hq.
  destruct (summarize_node_answers (strip q) (found ddgs_text (strip q))
              (found_length _)) as (s & calls & Hs & Hnode & _).
  exists s, calls. split; [exact Hs|]. split; [exact Hnode|].
  assert (Hsearch : search ddgs_text (strip (strip q))
                    = (inr (found ddgs_text (strip q)),
                       [ddgs_text_call (strip q) 10])).
  { rewrite strip_idem. apply search_found. now apply too_short_strip. }
  pose proof (app_invoke_run _ _ _ _ _ _ Hsearch Hnode) as Hinv.
  unfold run_agent. rewrite Hq. fold (initial (strip q)).
  rewrite (bind_inr _ _ _ _ Hinv).
  cbn [summary links default from_option id fst snd].
  assert (Hlinks : Forall well_formed (link_of <$> found ddgs_text (strip q))).
  { apply Forall_fmap. eapply Forall_impl; [apply found_well_formed|].
    intros d. apply link_of_well_formed. }
  rewrite take_ge by (rewrite length_fmap; apply found_length).
  rewrite (format_fold _ _ Hlinks). unfold ret, try_except, links_markup.
  cbn [fst snd app]. rewrite app_nil_r.
  now destruct (link_of <$> found ddgs_text (strip q)).
Qed.

Lemma render_not_empty l : Spec.render l <> [].
Proof. discriminate. Qed.

Lemma links_markup_not_empty ls : links_markup ls <> [].
Proof.
  destruct ls as [|l ls]; [discriminate|].
  unfold links_markup. cbn [fmap list_fmap List.concat].
  intros H. apply app_eq_nil in H as [H _]. now apply render_not_empty in H.
Qed.

End MorePipeline.

(** X9. Only the first five documents count: [summarize_node] answers
    on a list of documents what it answers on its first five. *)
Theorem summarize_node_first_five
    (pipeline : exn + model) (state state' : ResearchState)
    (docs : list dict) :
  results state = Some docs ->
  results state' = Some (take 5 docs) ->
  summarize_node pipeline state = summarize_node pipeline state'.
Proof.
  intros Hres Hres'. destruct docs as [|d docs].
  - rewrite !summarize_node_empty; [reflexivity | now right | now right].
  - change (take 5 (d :: docs)) with (d :: take 4 docs) in Hres'.
    destruct (summarize_returns pipeline
                (strip (aggregate (take 5 (d :: docs))))) as [s Hs].
    destruct (summarize pipeline (strip (aggregate (take 5 (d :: docs)))))
      as [[e|s'] tr] eqn:Hsum; [discriminate Hs|].
    assert (Htake : take 5 (d :: take 4 docs) = take 5 (d :: docs)).
    { cbn [take]. now rewrite take_take. }
    rewrite (summarize_node_run pipeline state d docs s' tr Hres Hsum).
    rewrite (summarize_node_run pipeline state' d (take 4 docs) s' tr Hres');
      rewrite Htake; [reflexivity | exact Hsum].
Qed.

(** X10. [summarize_node] calls the model at most once, and then on
    the blocks of the first five documents put end to end and trimmed, a
    text of at least ten words, with the length bounds of its number of
    words. *)
Theorem summarize_node_model_call
    (pipeline : exn + model) (state : ResearchState) (docs : list dict)
    (t : pystr) (max_len min_len : Z) :
  results state = Some docs ->
  summarizer_call t max_len min_len ∈ trace (summarize_node pipeline state) ->
  t = strip (aggregate (take 5 docs))
  /\ 10 <= word_count t
  /\ max_len = max_len_of (word_count t)
  /\ min_len = min_len_of max_len
  /\ trace (summarize_node pipeline state) = [summarizer_call t max_len min_len].
Proof.
  intros Hres Hcall. destruct docs as [|d docs].
  - rewrite summarize_node_empty in Hcall by now right. inversion Hcall.
  - destruct (summarize_returns pipeline
                (strip (aggregate (take 5 (d :: docs))))) as [s Hs].
    pose proof (summarize_trace pipeline
                  (strip (aggregate (take 5 (d :: docs))))) as Htr.
    destruct (summarize pipeline (strip (aggregate (take 5 (d :: docs)))))
      as [[e|s'] tr] eqn:Hsum; [discriminate Hs|].
    rewrite (summarize_node_run pipeline state d docs s' tr Hres Hsum)
      in Hcall |- *.
    unfold trace in *. cbn [snd] in *.
    destruct Htr as [-> | (m & _ & HW & ->)]; [inversion Hcall|].
    apply list_elem_of_singleton in Hcall.
    rewrite strip_idem in Hcall |- *. rewrite word_count_strip in *.
    injection Hcall as -> -> ->.
    rewrite word_count_strip. now repeat split.
Qed.

(** X11. [summarize_node] ends in a summary that is not empty and in
    one link for each of the first five documents; no link title holds an
    em-dash. *)
Theorem summarize_node_links_shape
    (pipeline : exn + model) (state : ResearchState) (docs : list dict) :
  results state = Some docs ->
  exists upd s ls,
    outcome (summarize_node pipeline state) = inr upd
    /\ summary upd = Some s /\ s <> []
    /\ links upd = Some ls
    /\ List.length ls = Nat.min 5 (List.length docs)
    /\ Forall (fun l => exists t, l !! "title" = Some t /\ EM_DASH ∉ t) ls.
Proof.
  intros Hres. destruct docs as [|d docs].
  - rewrite summarize_node_empty by now right.
    eexists _, _, _. split; [reflexivity|]. split; [reflexivity|].
    split; [discriminate|]. split; [reflexivity|]. split; [reflexivity|].
    constructor.
  - destruct (summarize_node_links pipeline state d docs Hres)
      as (s & tr & Hs & ->).
    eexists _, _, _. split; [reflexivity|]. split; [reflexivity|].
    split; [exact Hs|]. split; [reflexivity|].
    split; [now rewrite length_fmap, length_take|].
    apply Forall_fmap, Forall_forall. intros d' _. cbv beta.
    eexists. split; [apply link_of_title|].
    intros Hin. apply strip_subseteq in Hin.
    now apply before_no_sep in Hin.
Qed.

(** X12. [run_agent] never ends in an exception, and its summary is
    never empty; its markup is empty exactly for the queries the validation
    rejects. *)
Theorem run_agent_always_answers
    (ddgs_text : pystr -> Z -> exn + list raw) (pipeline : exn + model)
    (q : pystr) :
  exists s markup tr,
    run_agent ddgs_text pipeline q = (inr (s, markup), tr)
    /\ s <> []
    /\ (markup = [] <-> (q = [] \/ len (strip q) < 3)).
Proof.
  destruct (too_short q) eqn:Hq.
  - exists QUERY_TOO_SHORT, [], []. unfold run_agent. rewrite Hq.
    split; [reflexivity|]. split; [discriminate|].
    apply too_short_iff in Hq. tauto.
  - destruct (run_agent_valid ddgs_text pipeline q Hq)
      as (s & calls & Hs & _ & ->).
    eexists _, _, _. split; [reflexivity|]. split; [exact Hs|].
    split.
    + intros H. now apply links_markup_not_empty in H.
    + intros H. apply too_short_iff in H. congruence.
Qed.

(** X13. For a query that passes the validation, [run_agent] runs the
    node [search], calls the search provider once, on the trimmed query and
    for ten results, runs the node [summarize], and then calls the model at
    most once, on a text of at least ten words. *)
Theorem run_agent_events
    (ddgs_text : pystr -> Z -> exn + list raw) (pipeline : exn + model)
    (q : pystr) :
  q <> [] -> 3 <= len (strip q) ->
  exists calls,
    trace (run_agent ddgs_text pipeline q) = graph_events (strip q) ++ calls
    /\ (calls = []
        \/ exists m t,
             pipeline = inr m /\ 10 <= word_count t
             /\ calls = [summarizer_call t (max_len_of (word_count t))
                           (min_len_of (max_len_of (word_count t)))]).
Proof.
  intros Hne Hlen.
  assert (Hq : too_short q = false)
    by now apply (too_short_false ddgs_text).
  destruct (run_agent_valid ddgs_text pipeline q Hq)
    as (s & calls & _ & Hnode & ->).
  exists calls. split; [reflexivity|].
  destruct (summarize_node_answers pipeline (strip q)
              (found ddgs_text (strip q)) (found_length _ _))
    as (s' & calls' & _ & Hnode' & Hnone & Hsome).
  rewrite Hnode in Hnode'. injection Hnode' as _ <-.
  destruct (found ddgs_text (strip q)) as [|d docs] eqn:Hfound.
  - left. now apply Hnone.
  - destruct Hsome as [-> _]; [discriminate|].
    destruct (summarize_trace pipeline (strip (aggregate (d :: docs))))
      as [-> | (m & -> & HW & ->)]; [now left|].
    right. exists m, (strip (aggregate (d :: docs))).
    rewrite strip_idem, word_count_strip in *. now repeat split.
Qed.

(** X14. No result and a failed search look the same: when the call to
    the search provider raises, or returns a batch of which nothing is kept,
    [run_agent] returns the marker [NO_RESULTS] and the placeholder
    [NO_SOURCES], and does not call the model. *)
Theorem run_agent_nothing_found
    (ddgs_text : pystr -> Z -> exn + list raw) (pipeline : exn + model)
    (q : pystr) :
  q <> [] -> 3 <= len (strip q) ->
  ((exists e, ddgs_text (strip q) 10 = inl e)
   \/ (exists results, ddgs_text (strip q) 10 = inr results
                       /\ _clean_search_results results = [])) ->
  run_agent ddgs_text pipeline q
  = (inr (NO_RESULTS, NO_SOURCES), graph_events (strip q)).
Proof.
  intros Hne Hlen Hnothing.
  assert (Hq : too_short q = false)
    by now apply (too_short_false ddgs_text).
  assert (Hfound : found ddgs_text (strip q) = []).
  { unfold found. destruct Hnothing as [[e ->] | (rs & -> & Hrs)];
      [reflexivity | exact Hrs]. }
  destruct (run_agent_valid ddgs_text pipeline q Hq)
    as (s & calls & _ & Hnode & ->).
  rewrite Hfound in *.
  rewrite summarize_node_empty in Hnode by now right.
  injection Hnode as <- <-. now rewrite app_nil_r.
Qed.

(** X15. When the model could not be loaded, [run_agent] never calls
    it. For a query that passes the validation, with the documents found
    being those kept of the batch the search provider returns, and none
    when its call raises: when no document was found the result is the
    marker [NO_RESULTS] with the placeholder [NO_SOURCES]; when documents
    were found it is the marker [NO_DATA] with the fragments of their links
    put end to end. *)
Theorem run_agent_model_not_loaded
    (ddgs_text : pystr -> Z -> exn + list raw) (e : exn) (q : pystr) :
  q <> [] -> 3 <= len (strip q) ->
  let docs :=
    match ddgs_text (strip q) 10 with
    | inl _ => []
    | inr results => _clean_search_results results
    end in
  run_agent ddgs_text (inl e) q
  = (inr match docs with
         | [] => (NO_RESULTS, NO_SOURCES)
         | _ :: _ =>
             (NO_DATA, List.concat (Spec.render <$> (link_of <$> docs)))
         end,
     graph_events (strip q)).
Proof.
  intros Hne Hlen docs.
  assert (Hq : too_short q = false)
    by now apply (too_short_false ddgs_text).
  change docs with (found ddgs_text (strip q)). clear docs.
  destruct (run_agent_valid ddgs_text (inl e) q Hq)
    as (s & calls & _ & Hnode & ->).
  destruct (summarize_node_answers (inl e) (strip q)
              (found ddgs_text (strip q)) (found_length _ _))
    as (s' & calls' & _ & Hnode' & Hnone & Hsome).
  rewrite Hnode in Hnode'. injection Hnode' as <- <-.
  destruct (found ddgs_text (strip q)) as [|d docs].
  - destruct Hnone as [-> ->]; [reflexivity|].
    now rewrite app_nil_r.
  - destruct Hsome as [-> Hs]; [discriminate|].
    rewrite summarize_unavailable in Hs |- *.
    rewrite (Hs NO_DATA eq_refl) by discriminate.
    unfold trace, snd, links_markup. now rewrite app_nil_r.
Qed.

(** X16. The graph ends with the documents found and one link for each,
    in the same order: at most five, with the url and the source of their
    documents, and no two links with the same url. *)
Theorem graph_links_match_documents
    (ddgs_text : pystr -> Z -> exn + list raw) (pipeline : exn + model)
    (q : pystr) :
  exists docs s ls tr,
    app_invoke ddgs_text pipeline (initial q)
    = (inr {| query := Some q; results := Some docs; summary := Some s;
              links := Some ls |}, tr)
    /\ (List.length ls <= 5)%nat
    /\ Forall2 (fun d l => l !! "url" = d !! "url"
                           /\ l !! "source" = d !! "source") docs ls
    /\ NoDup ((fun l => l !! "url") <$> ls).
Proof.
  assert (Hdocs : exists docs tr1,
             search ddgs_text (strip q) = (inr docs, tr1)
             /\ Forall well_formed docs /\ (List.length docs <= 5)%nat
             /\ NoDup (urls docs)).
  { destruct (too_short (strip q)) eqn:Hq.
    - exists [], []. rewrite search_short by exact Hq.
      split; [reflexivity|]. split; [constructor|].
      split; [simpl; lia | constructor].
    - eexists _, _. split; [now apply search_found|].
      split; [apply found_well_formed|].
      split; [apply found_length | apply found_urls_NoDup]. }
  destruct Hdocs as (docs & tr1 & Hsearch & Hwf & Hlen & Hnd).
  destruct (summarize_node_answers pipeline q docs Hlen)
    as (s & calls & _ & Hnode & _).
  exists docs, s, (link_of <$> docs). eexists.
  split; [exact (app_invoke_run _ _ _ _ _ _ _ _ Hsearch Hnode)|].
  split; [now rewrite length_fmap|].
  assert (Hsame : Forall (fun d => link_of d !! "url" = d !! "url"
                                   /\ link_of d !! "source" = d !! "source")
                    docs).
  { eapply Forall_impl; [exact Hwf|].
    intros d ((c & u & Hu) & _ & [src Hsrc]).
    rewrite link_of_url, link_of_source. unfold get.
    now rewrite Hu, Hsrc. }
  split.
  - apply Forall2_fmap_r, Forall_Forall2_diag.
    eapply Forall_impl; [exact Hsame|]. now intros d.
  - rewrite <- list_fmap_compose.
    erewrite (Forall_fmap_ext_1 _ (fun d : dict => d !! "url")); [exact Hnd|].
    eapply Forall_impl; [exact Hsame|]. now intros d [Hu _].
Qed.

(** X17. White space around the query does not count: [run_agent]
    answers on a query what it answers on the trimmed query. *)
Theorem run_agent_trims_query
    (ddgs_text : pystr -> Z -> exn + list raw) (pipeline : exn + model)
    (q : pystr) :
  run_agent ddgs_text pipeline q = run_agent ddgs_text pipeline (strip q).
Proof.
  destruct (too_short q) eqn:Hq.
  - assert (Hq' : too_short (strip q) = true).
    { apply too_short_iff. apply too_short_iff in Hq as [-> | Hlen].
      - now left.
      - right. now rewrite strip_idem. }
    unfold run_agent. now rewrite Hq, Hq'.
  - pose proof (too_short_strip ddgs_text q Hq) as Hq'.
    unfold run_agent. now rewrite Hq, Hq', strip_idem.
Qed.

(** X18. When the model is loaded and the blocks of the documents
    found hold fewer than ten words, and white space is not all they hold,
    [run_agent] returns these blocks, trimmed, as the summary, with the
    links of the documents, and does not call the model. *)
Theorem run_agent_short_documents
    (ddgs_text : pystr -> Z -> exn + list raw) (m : model) (q : pystr)
    (results : list raw) (d : dict) (docs : list dict) :
  q <> [] -> 3 <= len (strip q) ->
  ddgs_text (strip q) 10 = inr results ->
  _clean_search_results results = d :: docs ->
  strip (aggregate (d :: docs)) <> [] ->
  word_count (aggregate (d :: docs)) < 10 ->
  run_agent ddgs_text (inr m) q
  = (inr (strip (aggregate (d :: docs)),
          List.concat (Spec.render <$> (link_of <$> d :: docs))),
     graph_events (strip q)).
Proof.
  intros Hne Hlen Hres Hclean Htext HW.
  assert (Hq : too_short q = false)
    by now apply (too_short_false ddgs_text).
  assert (Hfound : found ddgs_text (strip q) = d :: docs).
  { unfold found. now rewrite Hres. }
  destruct (run_agent_valid ddgs_text (inr m) q Hq)
    as (s & calls & _ & Hnode & ->).
  destruct (summarize_node_answers (inr m) (strip q)
              (found ddgs_text (strip q)) (found_length _ _))
    as (s' & calls' & _ & Hnode' & _ & Hsome).
  rewrite Hnode in Hnode'. injection Hnode' as <- <-.
  rewrite Hfound in *.
  destruct Hsome as [-> Hs]; [discriminate|].
  rewrite summarize_short in Hs |- *;
    [|exact Htext | now rewrite word_count_strip
     |exact Htext | now rewrite word_count_strip].
  rewrite strip_idem in Hs.
  rewrite (Hs _ eq_refl Htext). unfold trace, snd, links_markup.
  now rewrite app_nil_r.
Qed.

(** ** The further properties at sample inputs *)

Lemma clean_search_results_field_bounds_witness :
  document Sample.doc_a ∈ _clean_search_results Sample.batch
  /\ exists title content url source,
       document Sample.doc_a !! "title" = Some title
       /\ document Sample.doc_a !! "content" = Some content
       /\ document Sample.doc_a !! "url" = Some url
       /\ document Sample.doc_a !! "source" = Some source
       /\ title <> [] /\ url <> []
       /\ len title <= 200 /\ len content <= 500 /\ len source <= 100.
Proof.
  assert (H : document Sample.doc_a ∈ _clean_search_results Sample.batch)
    by (vm_compute; constructor).
  split; [exact H | exact (clean_search_results_field_bounds _ _ H)].
Defined.

Lemma clean_search_results_first_occurrence_witness :
  raw_url Sample.doc_a <> [] /\ raw_title Sample.doc_a <> []
  /\ (List.length (cleaned_of [Dict Sample.doc_no_url]) < 5)%nat
  /\ _clean_search_results
       ([Dict Sample.doc_no_url] ++ Dict Sample.doc_a
          :: [Dict Sample.doc_a_again])
       !! List.length (cleaned_of [Dict Sample.doc_no_url])
     = Some (document Sample.doc_a).
Proof.
  assert (Hu : raw_url Sample.doc_a <> []) by (vm_compute; discriminate).
  assert (Ht : raw_title Sample.doc_a <> []) by (vm_compute; discriminate).
  assert (Hlen : (List.length (cleaned_of [Dict Sample.doc_no_url]) < 5)%nat)
    by (vm_compute; lia).
  assert (Hfirst : forall r', Dict r' ∈ [Dict Sample.doc_no_url] ->
                     raw_url r' = raw_url Sample.doc_a -> raw_title r' = []).
  { intros r' Hin Heq. apply list_elem_of_singleton in Hin.
    injection Hin as ->. vm_compute in Heq. discriminate Heq. }
  split; [exact Hu|]. split; [exact Ht|]. split; [exact Hlen|].
  exact (clean_search_results_first_occurrence [Dict Sample.doc_no_url]
           [Dict Sample.doc_a_again] Sample.doc_a Hu Ht Hfirst Hlen).
Defined.

Lemma clean_search_results_later_duplicate_witness :
  raw_url Sample.doc_a <> [] /\ raw_title Sample.doc_a <> []
  /\ raw_url Sample.doc_a_again = raw_url Sample.doc_a
  /\ _clean_search_results
       ([] ++ Dict Sample.doc_a :: [NotDict] ++ Dict Sample.doc_a_again
          :: [Dict Sample.doc_empty_href])
     = _clean_search_results
         ([] ++ Dict Sample.doc_a :: [NotDict] ++ [Dict Sample.doc_empty_href]).
Proof.
  assert (Hu : raw_url Sample.doc_a <> []) by (vm_compute; discriminate).
  assert (Ht : raw_title Sample.doc_a <> []) by (vm_compute; discriminate).
  assert (Heq : raw_url Sample.doc_a_again = raw_url Sample.doc_a)
    by reflexivity.
  split; [exact Hu|]. split; [exact Ht|]. split; [exact Heq|].
  exact (clean_search_results_later_duplicate [] [NotDict]
           [Dict Sample.doc_empty_href] Sample.doc_a Sample.doc_a_again
           Hu Ht Heq).
Defined.

Lemma clean_search_results_source_no_separator_witness :
  document Sample.doc_a ∈ _clean_search_results Sample.batch
  /\ exists (r : dict) (source : pystr),
       Dict r ∈ Sample.batch /\ document Sample.doc_a = document r
       /\ document Sample.doc_a !! "source" = Some source
       /\ (EM_DASH ∉ source)
       /\ (EM_DASH ∉ raw_title r -> HYPHEN ∉ source).
Proof.
  assert (H : document Sample.doc_a ∈ _clean_search_results Sample.batch)
    by (vm_compute; constructor).
  split; [exact H | exact (clean_search_results_source_no_separator _ _ H)].
Defined.

Lemma summarize_reads_model_answer_witness :
  10 <= word_count Sample.twelve_words
  /\ outcome (summarize (inr Sample.model_ok) Sample.twelve_words)
     = inr (lit "short")
  /\ outcome (summarize (inr MoreSample.model_silent) Sample.twelve_words)
     = inr NO_SUMMARY
  /\ outcome (summarize (inr MoreSample.model_no_key) Sample.twelve_words)
     = inr SUMMARY_ERROR
  /\ outcome (summarize (inr Sample.model_raises) Sample.twelve_words)
     = inr SUMMARY_ERROR.
Proof.
  assert (HW : 10 <= word_count Sample.twelve_words)
    by (vm_compute; discriminate).
  split; [exact HW|].
  destruct (summarize_reads_model_answer Sample.model_ok
              Sample.twelve_words HW) as (_ & Htext & _).
  destruct (summarize_reads_model_answer MoreSample.model_silent
              Sample.twelve_words HW) as (_ & _ & Hnone & _).
  destruct (summarize_reads_model_answer MoreSample.model_no_key
              Sample.twelve_words HW) as (_ & _ & _ & Hkey & _).
  destruct (summarize_reads_model_answer Sample.model_raises
              Sample.twelve_words HW) as (_ & _ & _ & _ & Hraise).
  split; [exact (Htext _ _ _ eq_refl eq_refl)|].
  split; [exact (Hnone eq_refl)|].
  split; [exact (Hkey _ _ eq_refl eq_refl) | exact (Hraise _ eq_refl)].
Defined.

Lemma length_bounds_by_word_count_witness :
  (61 < 62 /\ max_len_of 61 = 30)
  /\ (62 <= 100 < 260 /\ max_len_of 100 = 100 / 2)
  /\ (260 <= 300 /\ max_len_of 300 = 130)
  /\ (120 <= 120 /\ min_len_of (max_len_of 120) = 30)
  /\ (100 <= 300 /\ max_len_of 100 <= max_len_of 300).
Proof.
  destruct (length_bounds_by_word_count 61 61) as (H1 & _).
  destruct (length_bounds_by_word_count 100 300) as (_ & H2 & _ & _ & H5).
  destruct (length_bounds_by_word_count 300 300) as (_ & _ & H3 & _).
  destruct (length_bounds_by_word_count 120 120) as (_ & _ & _ & H4 & _).
  assert (A1 : 61 < 62) by lia.
  assert (A2 : 62 <= 100 < 260) by lia.
  assert (A3 : 260 <= 300) by lia.
  assert (A4 : 120 <= 120) by lia.
  assert (A5 : 100 <= 300) by lia.
  split; [exact (conj A1 (H1 A1))|]. split; [exact (conj A2 (H2 A2))|].
  split; [exact (conj A3 (H3 A3))|].
  split; [exact (conj A4 (proj2 H4 A4)) | exact (conj A5 (H5 A5))].
Defined.

Lemma summarize_node_first_five_witness :
  results (Sample.with_results MoreSample.six_documents)
  = Some MoreSample.six_documents
  /\ results (Sample.with_results (take 5 MoreSample.six_documents))
     = Some (take 5 MoreSample.six_documents)
  /\ summarize_node Sample.loaded (Sample.with_results MoreSample.six_documents)
     = summarize_node Sample.loaded
         (Sample.with_results (take 5 MoreSample.six_documents)).
Proof.
  split; [reflexivity|]. split; [reflexivity|].
  exact (summarize_node_first_five Sample.loaded
           (Sample.with_results MoreSample.six_documents)
           (Sample.with_results (take 5 MoreSample.six_documents))
           MoreSample.six_documents eq_refl eq_refl).
Defined.

Lemma summarize_node_model_call_witness :
  results (Sample.with_results [MoreSample.document_long])
  = Some [MoreSample.document_long]
  /\ summarizer_call MoreSample.long_text 30 15
       ∈ trace (summarize_node Sample.loaded
                  (Sample.with_results [MoreSample.document_long]))
  /\ MoreSample.long_text
     = strip (aggregate (take 5 [MoreSample.document_long]))
  /\ 10 <= word_count MoreSample.long_text
  /\ 30 = max_len_of (word_count MoreSample.long_text)
  /\ 15 = min_len_of 30
  /\ trace (summarize_node Sample.loaded
              (Sample.with_results [MoreSample.document_long]))
     = [summarizer_call MoreSample.long_text 30 15].
Proof.
  assert (Hcall : summarizer_call MoreSample.long_text 30 15
                    ∈ trace (summarize_node Sample.loaded
                               (Sample.with_results [MoreSample.document_long])))
    by (vm_compute; constructor).
  split; [reflexivity|]. split; [exact Hcall|].
  exact (summarize_node_model_call Sample.loaded
           (Sample.with_results [MoreSample.document_long])
           [MoreSample.document_long] MoreSample.long_text 30 15
           eq_refl Hcall).
Defined.

Lemma summarize_node_links_shape_witness :
  results (Sample.with_results MoreSample.six_documents)
  = Some MoreSample.six_documents
  /\ exists upd s ls,
       outcome (summarize_node Sample.loaded
                  (Sample.with_results MoreSample.six_documents)) = inr upd
       /\ summary upd = Some s /\ s <> []
       /\ links upd = Some ls
       /\ List.length ls = Nat.min 5 (List.length MoreSample.six_documents)
       /\ Forall (fun l => exists t, l !! "title" = Some t /\ EM_DASH ∉ t) ls.
Proof.
  split; [reflexivity|].
  exact (summarize_node_links_shape Sample.loaded
           (Sample.with_results MoreSample.six_documents)
           MoreSample.six_documents eq_refl).
Defined.

Lemma run_agent_events_witness :
  lit " abc " <> [] /\ 3 <= len (strip (lit " abc "))
  /\ exists calls,
       trace (run_agent Sample.ddgs_ok Sample.loaded (lit " abc "))
       = graph_events (strip (lit " abc ")) ++ calls
       /\ (calls = []
           \/ exists m t,
                Sample.loaded = inr m /\ 10 <= word_count t
                /\ calls = [summarizer_call t (max_len_of (word_count t))
                              (min_len_of (max_len_of (word_count t)))]).
Proof.
  assert (Hne : lit " abc " <> []) by (vm_compute; discriminate).
  assert (Hlen : 3 <= len (strip (lit " abc "))) by (vm_compute; discriminate).
  split; [exact Hne|]. split; [exact Hlen|].
  exact (run_agent_events Sample.ddgs_ok Sample.loaded (lit " abc ") Hne Hlen).
Defined.

Lemma run_agent_nothing_found_witness :
  lit "abc" <> [] /\ 3 <= len (strip (lit "abc"))
  /\ (exists e, Sample.ddgs_down (strip (lit "abc")) 10 = inl e)
  /\ run_agent Sample.ddgs_down Sample.loaded (lit "abc")
     = (inr (NO_RESULTS, NO_SOURCES), graph_events (strip (lit "abc")))
  /\ (exists results,
        MoreSample.ddgs_useless (strip (lit "abc")) 10 = inr results
        /\ _clean_search_results results = [])
  /\ run_agent MoreSample.ddgs_useless Sample.loaded (lit "abc")
     = (inr (NO_RESULTS, NO_SOURCES), graph_events (strip (lit "abc"))).
Proof.
  assert (Hne : lit "abc" <> []) by (vm_compute; discriminate).
  assert (Hlen : 3 <= len (strip (lit "abc"))) by (vm_compute; discriminate).
  assert (Hdown : exists e, Sample.ddgs_down (strip (lit "abc")) 10 = inl e)
    by (eexists; reflexivity).
  assert (Huseless : exists results,
            MoreSample.ddgs_useless (strip (lit "abc")) 10 = inr results
            /\ _clean_search_results results = [])
    by (eexists; split; reflexivity).
  split; [exact Hne|]. split; [exact Hlen|]. split; [exact Hdown|].
  split; [exact (run_agent_nothing_found Sample.ddgs_down Sample.loaded
                   (lit "abc") Hne Hlen (or_introl Hdown))|].
  split; [exact Huseless|].
  exact (run_agent_nothing_found MoreSample.ddgs_useless Sample.loaded
           (lit "abc") Hne Hlen (or_intror Huseless)).
Defined.

Lemma run_agent_model_not_loaded_witness :
  lit "abc" <> [] /\ 3 <= len (strip (lit "abc"))
  /\ run_agent Sample.ddgs_ok (inl (Exception [])) (lit "abc")
     = (inr (NO_DATA,
             List.concat
               (Spec.render
                  <$> (link_of <$> _clean_search_results Sample.batch))),
        graph_events (strip (lit "abc")))
  /\ List.length (_clean_search_results Sample.batch) = 2%nat
  /\ run_agent Sample.ddgs_down (inl (Exception [])) (lit "abc")
     = (inr (NO_RESULTS, NO_SOURCES), graph_events (strip (lit "abc"))).
Proof.
  assert (Hne : lit "abc" <> []) by (vm_compute; discriminate).
  assert (Hlen : 3 <= len (strip (lit "abc"))) by (vm_compute; discriminate).
  split; [exact Hne|]. split; [exact Hlen|].
  split; [exact (run_agent_model_not_loaded Sample.ddgs_ok (Exception [])
                   (lit "abc") Hne Hlen)|].
  split; [reflexivity|].
  exact (run_agent_model_not_loaded Sample.ddgs_down (Exception [])
           (lit "abc") Hne Hlen).
Defined.

Lemma run_agent_short_documents_witness :
  lit "Test Topic" <> [] /\ 3 <= len (strip (lit "Test Topic"))
  /\ Sample.ddgs_twice (strip (lit "Test Topic")) 10
     = inr [Dict Sample.doc_test; Dict Sample.doc_test]
  /\ _clean_search_results [Dict Sample.doc_test; Dict Sample.doc_test]
     = [document Sample.doc_test]
  /\ strip (aggregate [document Sample.doc_test]) <> []
  /\ word_count (aggregate [document Sample.doc_test]) < 10
  /\ run_agent Sample.ddgs_twice (inr Sample.model_ok) (lit "Test Topic")
     = (inr (strip (aggregate [document Sample.doc_test]),
             List.concat
               (Spec.render <$> (link_of <$> [document Sample.doc_test]))),
        graph_events (strip (lit "Test Topic"))).
Proof.
  assert (Hne : lit "Test Topic" <> []) by (vm_compute; discriminate).
  assert (Hlen : 3 <= len (strip (lit "Test Topic")))
    by (vm_compute; discriminate).
  assert (Hres : Sample.ddgs_twice (strip (lit "Test Topic")) 10
                 = inr [Dict Sample.doc_test; Dict Sample.doc_test])
    by reflexivity.
  assert (Hclean : _clean_search_results
                     [Dict Sample.doc_test; Dict Sample.doc_test]
                   = [document Sample.doc_test]) by reflexivity.
  assert (Htext : strip (aggregate [document Sample.doc_test]) <> [])
    by (vm_compute; discriminate).
  assert (HW : word_count (aggregate [document Sample.doc_test]) < 10)
    by (vm_compute; reflexivity).
  split; [exact Hne|]. split; [exact Hlen|]. split; [exact Hres|].
  split; [exact Hclean|]. split; [exact Htext|]. split; [exact HW|].
  exact (run_agent_short_documents Sample.ddgs_twice Sample.model_ok
           (lit "Test Topic") _ _ _ Hne Hlen Hres Hclean Htext HW).
Defined.
